(** * skycoin-exchange: the exchange server (src/server/server.go)

    A shallow embedding of [ExchangeServer] and of the operations it
    exposes to the router: coin registration, the UTXO reservation
    dispatch, the admin check, the fee accessor, the wiring done by
    [New] and [Run], and the settlement of matched orders.

    Conventions.
    - A Go [map[string]T] is a [gmap string T].
    - A function that may [panic] returns a [goResult]: [Done v] when it
      returns normally, [Panic msg] when the goroutine (and with it the
      process, nothing recovers) dies.
    - A Go [error] is the text it carries; [(T, error)] is a pair whose
      second component is [None] for [nil].
    - A method with a pointer receiver takes the server and gives back
      the server it leaves behind. *)

From Stdlib Require Import ssreflect ZArith NArith Lia Ascii String.
From stdpp Require Import gmap strings list fin_maps sorting pretty.

Local Open Scope general_if_scope.
Local Open Scope string_scope.

(** ** Go runtime values *)

Inductive goResult (A : Type) : Type :=
| Done (a : A)
| Panic (msg : string).
Arguments Done {A} a.
Arguments Panic {A} msg.

Definition error := string.

(** [time.Duration] is a count of nanoseconds. *)
Definition Duration := Z.

(** ** Package [strings] *)

Module GoStrings.

(** [strings.HasPrefix]. *)
Fixpoint HasPrefix (s prefix : string) : bool :=
  match prefix, s with
  | EmptyString, _ => true
  | String _ _, EmptyString => false
  | String p prefix', String c s' =>
      if Ascii.eqb c p then HasPrefix s' prefix' else false
  end.

(** [strings.Contains(s, substr)]: [substr] occurs somewhere within [s],
    that is, [strings.Index(s, substr) >= 0]. *)
Fixpoint Contains (s substr : string) : bool :=
  HasPrefix s substr ||
  match s with
  | EmptyString => false
  | String _ s' => Contains s' substr
  end.

(** [strings.Split(s, sep)] for a separator of one byte, the only way the
    server calls it ([strings.Split(cp, "/")]): the pieces of [s] between
    consecutive separators; one more piece than there are separators, so
    an empty [s] gives one empty piece. *)
Fixpoint Split (s : string) (sep : ascii) : list string :=
  match s with
  | EmptyString => [EmptyString]
  | String c s' =>
      if Ascii.eqb c sep then EmptyString :: Split s' sep
      else match Split s' sep with
           | piece :: pieces => String c piece :: pieces
           | [] => [String c EmptyString]
           end
  end.

(** [strings.Count(s, sep)] for a separator of one byte: how often [sep]
    occurs in [s]. *)
Fixpoint Count (s : string) (sep : ascii) : nat :=
  match s with
  | EmptyString => 0
  | String c s' => (if Ascii.eqb c sep then 1 else 0) + Count s' sep
  end.

End GoStrings.

(** ** Package [account] *)

Module account.

(** Modelled from the spec: the [account] package (an [Accounter] with
    [GetBalance], [IncreaseBalance], [DecreaseBalance]; a [Manager] with
    [GetAccount] and [Save]) is not among the sources.  The spec gives an
    account "a mapping from asset symbol to non-negative integer balance"
    and "a per-asset list of deposit addresses", an [increase] that has no
    failure, and a [decrease] that "fails with insufficient_balance if
    amt > current".  An asset the account has no entry for holds 0. *)
Record ExchangeAccount : Type := {
  ID : string;
  Balance : gmap string N;
  Addresses : gmap string (list string)
}.

(** Modelled from the spec: the balance of an asset, 0 for an asset the
    account has no entry for. *)
Definition GetBalance (a : ExchangeAccount) (ct : string) : N :=
  default 0%N (Balance a !! ct).

(** Modelled from the spec: the assignment [Balance[ct] = v]. *)
Definition setBalance (a : ExchangeAccount) (ct : string) (v : N) : ExchangeAccount :=
  {| ID := ID a; Balance := <[ct := v]> (Balance a); Addresses := Addresses a |}.

(** Modelled from the spec: [increase(id, asset, amt)]. *)
Definition IncreaseBalance (a : ExchangeAccount) (ct : string) (amt : N)
  : ExchangeAccount * option error :=
  (setBalance a ct (GetBalance a ct + amt), None).

(** Modelled from the spec: [decrease(id, asset, amt)], which enforces
    [balance ≥ 0]. *)
Definition DecreaseBalance (a : ExchangeAccount) (ct : string) (amt : N)
  : ExchangeAccount * option error :=
  if (GetBalance a ct <? amt)%N
  then (a, Some "insufficient_balance")
  else (setBalance a ct (GetBalance a ct - amt), None).

(** Modelled from the spec: the account store, the accounts in memory
    next to the snapshot last written to disk, and what the disk answers to
    a write: [None] when it takes it, the error when it does not. *)
Record Manager : Type := {
  Accounts : gmap string ExchangeAccount;
  Snapshot : gmap string ExchangeAccount;
  DiskError : option error
}.

(** Modelled from the spec: [get(id)], an [unknown_account] error for an
    id the store does not hold. *)
Definition GetAccount (m : Manager) (id : string)
  : option ExchangeAccount * option error :=
  match Accounts m !! id with
  | Some a => (Some a, None)
  | None => (None, Some "unknown_account")
  end.

(** Modelled from the spec: [GetAccount] hands out the stored account
    itself, not a copy, so what a caller does to it is done to the store's
    entry; [update] is that write. *)
Definition update (m : Manager) (id : string) (a : ExchangeAccount) : Manager :=
  {| Accounts := <[id := a]> (Accounts m); Snapshot := Snapshot m;
     DiskError := DiskError m |}.

(** Modelled from the spec: [save_all()], "a single on-disk snapshot
    written atomically": the snapshot becomes the store, or, when the disk
    refuses the write, stays what it was and the error is returned. *)
Definition Save (m : Manager) : Manager * option error :=
  match DiskError m with
  | None =>
      ({| Accounts := Accounts m; Snapshot := Accounts m; DiskError := None |}, None)
  | Some err => (m, Some err)
  end.

End account.

(** ** Package [order] *)

Module order.

(** Modelled from the spec: the [order] package is not among the sources.
    "Order. (id, account id, pair, side ∈ {bid, ask}, price, amount, ...).
    Price and amount are positive integers"; of these [settleOrder] reads
    [Type], [AccountID], [Price] and [Amount].  [Price] and [Amount] are
    [uint64] values, [Type] is an integer type of which [Bid] and [Ask] are
    two values. *)
(** [order.Type]: [order.Bid], [order.Ask], or any other value of the
    type; the field of that name is [Type_] here. *)
Inductive OrderType : Type := Bid | Ask | Other (tag : N).

Record Order : Type := {
  OrderID : N;
  AccountID : string;
  Type_ : OrderType;
  Price : N;
  Amount : N
}.

(** A buffered channel of orders, [make(chan order.Order, n)]: its
    capacity and the orders waiting in it. *)
Record Chan : Type := {
  chan_cap : nat;
  chan_buf : list Order
}.

Definition make_chan (n : nat) : Chan := {| chan_cap := n; chan_buf := [] |}.

(** Modelled from the spec: a book holds "open bids and asks". *)
Record Book : Type := {
  bids : list Order;
  asks : list Order
}.

(** The zero value [order.Book{}]. *)
Definition emptyBook : Book := {| bids := []; asks := [] |}.

(** Modelled from the spec: the order manager "owns the set of books (one
    per pair)"; [register_channel(pair, ch)] "wires a pair's output". *)
Record Manager : Type := {
  books : gmap string Book;
  chans : gmap string Chan
}.

(** Modelled from the spec: [order.NewManager()], no book, no channel. *)
Definition NewManager : Manager := {| books := ∅; chans := ∅ |}.

(** Modelled from the spec: [AddBook] gives the pair its book. *)
Definition AddBook (m : Manager) (cp : string) (b : Book) : Manager :=
  {| books := <[cp := b]> (books m); chans := chans m |}.

(** Modelled from the spec: [register_channel(pair, ch)]. *)
Definition RegisterOrderChan (m : Manager) (cp : string) (c : Chan) : Manager :=
  {| books := books m; chans := <[cp := c]> (chans m) |}.

End order.

(** ** Packages [coin], [bitcoin] and [skycoin] *)

Module coin.

(** A [coin.Gateway] is used by the server through its [Type()] and
    [Symbol()] methods only. *)
Record Gateway : Type := {
  Type_ : string;
  Symbol : string
}.

End coin.

(** Modelled from the spec: the constants [bitcoin.Type] and [skycoin.Type]
    are declared outside the sources; the chains are named "bitcoin" and
    "skycoin" (the pair wired by [New] is "bitcoin/skycoin"). *)
Module bitcoin.
(** Modelled from the spec: the constant [bitcoin.Type]. *)
Definition Type_ : string := "bitcoin".
End bitcoin.

Module skycoin.
(** Modelled from the spec: the constant [skycoin.Type]. *)
Definition Type_ : string := "skycoin".
End skycoin.

(** The interface the server needs of a chain's UTXO manager; [M] is the
    manager's state, [U] the chain's UTXO.  The managers themselves live in
    the [bitcoin] and [skycoin] packages. *)
Class UtxoManager (M U : Type) : Type := {
  um_ChooseUtxos : M → N → Duration → M * (list U * option error);
  um_PutUtxo : M → U → M;
  um_WatchAddresses : M → list string → M
}.

(** Modelled from the spec: a chain's UTXO pool, "live: multiset of UTXOs
    keyed by outpoint; reserved: ...; watched: set of addresses".
    [ChooseUtxos] is a "greedy selection over live in decreasing value
    order; accumulate until sum ≥ amount", the selected UTXOs "moved from
    live to reserved"; when the pool is short the caller waits for the
    refresh loop and, nothing arriving, fails.  [PutUtxo] "moves each back
    to live". *)
Module pool.

(** Modelled from the spec: "UTXO. A tuple (outpoint id, address, amount,
    ...)". *)
Record Utxo : Type := {
  outpoint : string;
  address : string;
  value : N
}.

(** Modelled from the spec: the pool's [live], [reserved] and [watched]. *)
Record Pool : Type := {
  live : list Utxo;
  reserved : list Utxo;
  watched : list string
}.

(** Decreasing value order. *)
Definition by_value_desc (a b : Utxo) : Prop := (value b ≤ value a)%N.

#[global] Instance by_value_desc_dec : RelDecision by_value_desc.
Proof. intros a b. unfold by_value_desc. apply _. Defined.

(** Take UTXOs from the front until their values reach [amount]; what is
    taken, and what is left. *)
Fixpoint accumulate (us : list Utxo) (amount : N) : option (list Utxo * list Utxo) :=
  if (amount =? 0)%N then Some ([], us) else
  match us with
  | [] => None
  | u :: us' =>
      match accumulate us' (amount - value u) with
      | Some (taken, rest) => Some (u :: taken, rest)
      | None => None
      end
  end.

(** Modelled from the spec: [ChooseUtxos(amount, timeout)]. *)
Definition ChooseUtxos (p : Pool) (amount : N) (tm : Duration)
  : Pool * (list Utxo * option error) :=
  match accumulate (merge_sort by_value_desc (live p)) amount with
  | Some (taken, rest) =>
      ({| live := rest; reserved := taken ++ reserved p; watched := watched p |},
       (taken, None))
  | None => (p, ([], Some "insufficient_funds"))
  end.

(** UTXOs are keyed by outpoint. *)
Definition utxo_eqb (a b : Utxo) : bool := String.eqb (outpoint a) (outpoint b).

(** Modelled from the spec: the return of one reserved UTXO to [live]. *)
Definition PutUtxo (p : Pool) (u : Utxo) : Pool :=
  {| live := u :: live p;
     reserved := filter (λ r, utxo_eqb r u = false) (reserved p);
     watched := watched p |}.

(** Modelled from the spec: [WatchAddresses(addrs)] "extends watched". *)
Definition WatchAddresses (p : Pool) (addrs : list string) : Pool :=
  {| live := live p; reserved := reserved p; watched := watched p ++ addrs |}.

#[global] Instance pool_UtxoManager : UtxoManager Pool Utxo := {
  um_ChooseUtxos := ChooseUtxos;
  um_PutUtxo := PutUtxo;
  um_WatchAddresses := WatchAddresses
}.

(** Modelled from the spec: a manager starts with an empty pool that
    watches the wallet's addresses. *)
Definition NewUtxoManager (size : Z) (watchAddrs : list string) : Pool :=
  {| live := []; reserved := []; watched := watchAddrs |}.

End pool.

(** ** Package [server] *)

Module server.

Record Config : Type := {
  Server : string;
  Port : Z;
  BtcFee : Z;
  DataDir : string;
  Seed : string;
  Seckey : string;
  UtxoPoolSize : Z;
  Admins : string;
  NodeAddresses : gmap string string;
  HttpProf : bool
}.

(** [NewConfig]: every field has its zero value, the node address map is
    made and empty. *)
Definition NewConfig : Config :=
  {| Server := ""; Port := 0; BtcFee := 0; DataDir := ""; Seed := "";
     Seckey := ""; UtxoPoolSize := 0; Admins := ""; NodeAddresses := ∅;
     HttpProf := false |}.

(** Go's [int] on the 64-bit targets the server is built for. *)
Definition int_range (z : Z) : Prop := (- 2 ^ 63 ≤ z < 2 ^ 63)%Z.

(** The product [a * b] of two [uint64]: Go keeps its low 64 bits. *)
Definition mul64 (a b : N) : N := ((a * b) mod 2 ^ 64)%N.

(** The conversion [uint64(x)] of a signed integer: the two's complement
    bits of [x] read as an unsigned number. *)
Definition uint64 (z : Z) : Z := Z.land z (Z.ones 64).

(** Modelled from the spec: the type [wallets] is declared outside the
    sources; per coin type, the addresses of the server's wallet. *)
Definition wallets : Type := gmap string (list string).

(** Modelled from the spec: [wallets.GetAddresses(coinType)], an error for
    a coin type without a wallet. *)
Definition wallets_GetAddresses (w : wallets) (ct : string)
  : list string * option error :=
  match w !! ct with
  | Some addrs => (addrs, None)
  | None => ([], Some (ct +:+ " wallet does not exist"))
  end.

Record ExchangeServer (BM SM : Type) : Type := {
  Manager : account.Manager;
  btcum : BM;
  skyum : SM;
  orderManager : order.Manager;
  cfg : Config;
  wallets_ : wallets;
  orderHandlers : gmap string order.Chan;
  coins : gmap string coin.Gateway
}.
Arguments Manager {BM SM} _.
Arguments btcum {BM SM} _.
Arguments skyum {BM SM} _.
Arguments orderManager {BM SM} _.
Arguments cfg {BM SM} _.
Arguments wallets_ {BM SM} _.
Arguments orderHandlers {BM SM} _.
Arguments coins {BM SM} _.

(** The value an [interface{}] holding UTXOs can have: a slice of one of
    the two chains' UTXOs, or [nil]. *)
Inductive utxosValue (BU SU : Type) : Type :=
| BtcUtxos (us : list BU)
| SkyUtxos (us : list SU)
| NilValue.
Arguments BtcUtxos {BU SU} us.
Arguments SkyUtxos {BU SU} us.
Arguments NilValue {BU SU}.

(** What the file system answers when a persisted store is loaded. *)
Inductive loadResult (A : Type) : Type :=
| Loaded (a : A)
| NotExist
| LoadFailed (err : error).
Arguments Loaded {A} a.
Arguments NotExist {A}.
Arguments LoadFailed {A} err.

(** The environment [New] runs in: the outcome of [account.LoadManager],
    of [makeWallets] and of [order.LoadManager].  The directories made by
    [initDataDir] only name the files these answers come from. *)
Record Env : Type := {
  env_accounts : loadResult account.Manager;
  env_wallets : wallets * option error;
  env_orders : loadResult order.Manager
}.

(** Modelled from the spec: [account.NewManager()], a store without
    accounts. *)
Definition NewAccountManager : account.Manager :=
  {| account.Accounts := ∅; account.Snapshot := ∅; account.DiskError := None |}.

Section WithUtxoManagers.

Context {BM BU SM SU : Type}.
Context {btc_um : UtxoManager BM BU} {sky_um : UtxoManager SM SU}.
(** [bitcoin.NewUtxoManager] and [skycoin.NewUtxoManager]. *)
Variable bitcoin_NewUtxoManager : Z → list string → BM.
Variable skycoin_NewUtxoManager : string → Z → list string → SM.

Definition set_Manager (s : ExchangeServer BM SM) (m : account.Manager) : ExchangeServer BM SM :=
  {| Manager := m; btcum := btcum s; skyum := skyum s;
     orderManager := orderManager s; cfg := cfg s; wallets_ := wallets_ s;
     orderHandlers := orderHandlers s; coins := coins s |}.

Definition set_btcum (s : ExchangeServer BM SM) (um : BM) : ExchangeServer BM SM :=
  {| Manager := Manager s; btcum := um; skyum := skyum s;
     orderManager := orderManager s; cfg := cfg s; wallets_ := wallets_ s;
     orderHandlers := orderHandlers s; coins := coins s |}.

Definition set_skyum (s : ExchangeServer BM SM) (um : SM) : ExchangeServer BM SM :=
  {| Manager := Manager s; btcum := btcum s; skyum := um;
     orderManager := orderManager s; cfg := cfg s; wallets_ := wallets_ s;
     orderHandlers := orderHandlers s; coins := coins s |}.

Definition set_orderManager (s : ExchangeServer BM SM) (om : order.Manager) : ExchangeServer BM SM :=
  {| Manager := Manager s; btcum := btcum s; skyum := skyum s;
     orderManager := om; cfg := cfg s; wallets_ := wallets_ s;
     orderHandlers := orderHandlers s; coins := coins s |}.

Definition set_coins (s : ExchangeServer BM SM) (cs : gmap string coin.Gateway) : ExchangeServer BM SM :=
  {| Manager := Manager s; btcum := btcum s; skyum := skyum s;
     orderManager := orderManager s; cfg := cfg s; wallets_ := wallets_ s;
     orderHandlers := orderHandlers s; coins := cs |}.

(** [New]: every [panic(err)] of the source is a [Panic]; the order manager
    is the loaded one, or a fresh one with the book of "bitcoin/skycoin". *)
Definition New (env : Env) (cfg0 : Config) : goResult (ExchangeServer BM SM) :=
  match env_accounts env with
  | LoadFailed err => Panic err
  | acnts =>
    let acntMgr := match acnts with Loaded m => m | _ => NewAccountManager end in
    match env_wallets env with
    | (_, Some err) => Panic err
    | (wlts, None) =>
      match wallets_GetAddresses wlts bitcoin.Type_ with
      | (_, Some err) => Panic err
      | (btcWatchAddrs, None) =>
        let btcum0 := bitcoin_NewUtxoManager (UtxoPoolSize cfg0) btcWatchAddrs in
        match wallets_GetAddresses wlts skycoin.Type_ with
        | (_, Some err) => Panic err
        | (skyWatchAddrs, None) =>
          let skyum0 :=
            skycoin_NewUtxoManager (default "" (NodeAddresses cfg0 !! skycoin.Type_))
                                   (UtxoPoolSize cfg0) skyWatchAddrs in
          match env_orders env with
          | LoadFailed err => Panic err
          | ords =>
            let orderManager0 :=
              match ords with
              | Loaded m => m
              | _ => order.AddBook order.NewManager "bitcoin/skycoin" order.emptyBook
              end in
            Done {| Manager := acntMgr; btcum := btcum0; skyum := skyum0;
                    orderManager := orderManager0; cfg := cfg0;
                    wallets_ := wlts;
                    orderHandlers := {[ "bitcoin/skycoin" := order.make_chan 100 ]};
                    coins := ∅ |}
          end
        end
      end
    end
  end.

(** [fmt.Errorf("%s coin already registered", c.Type())]. *)
Definition conflict (c : coin.Gateway) : error :=
  coin.Type_ c +:+ " coin already registered".

(** [BindCoins]: the loop over the variadic argument, on the map of
    registered coins. *)
Fixpoint BindCoins_range (m : gmap string coin.Gateway) (cs : list coin.Gateway)
  : gmap string coin.Gateway * option error :=
  match cs with
  | [] => (m, None)
  | c :: cs' =>
      match m !! coin.Type_ c with
      | Some _ => (m, Some (conflict c))
      | None => BindCoins_range (<[coin.Type_ c := c]> m) cs'
      end
  end.

Definition BindCoins (serv : ExchangeServer BM SM) (cs : list coin.Gateway)
  : ExchangeServer BM SM * option error :=
  let '(m, err) := BindCoins_range (coins serv) cs in (set_coins serv m, err).

(** The first loop of [Run]: every order handler is registered with the
    order manager under its pair. *)
Definition Run_registerOrderChans (self : ExchangeServer BM SM) : ExchangeServer BM SM :=
  set_orderManager self
    (map_fold (λ cp c om, order.RegisterOrderChan om cp c)
              (orderManager self) (orderHandlers self)).

Definition GetBtcFee (self : ExchangeServer BM SM) : Z :=
  uint64 (BtcFee (cfg self)).

Definition GetSecKey (self : ExchangeServer BM SM) : string :=
  Seckey (cfg self).

Definition GetCoin (serv : ExchangeServer BM SM) (ct : string)
  : option coin.Gateway * option error :=
  match coins serv !! ct with
  | Some c => (Some c, None)
  | None => (None, Some (ct +:+ " coin is not supported"))
  end.

(** [GetSupportCoins]: the symbol of every registered coin, one slot per
    coin.  Go leaves the order in which [range] visits a map open; the
    slots are filled here in the order of [map_to_list]. *)
Definition GetSupportCoins (serv : ExchangeServer BM SM) : list string :=
  (λ kc, coin.Symbol (snd kc)) <$> map_to_list (coins serv).

Definition ChooseUtxos (self : ExchangeServer BM SM) (cp : string) (amount : N)
    (tm : Duration)
  : ExchangeServer BM SM * (utxosValue BU SU * option error) :=
  if decide (cp = bitcoin.Type_) then
    let '(um, (us, err)) := um_ChooseUtxos (btcum self) amount tm in
    (set_btcum self um, (BtcUtxos us, err))
  else if decide (cp = skycoin.Type_) then
    let '(um, (us, err)) := um_ChooseUtxos (skyum self) amount tm in
    (set_skyum self um, (SkyUtxos us, err))
  else (self, (NilValue, Some "unknow coin type")).

(** [PutUtxos]: the type assertion [utxos.([]bitcoin.Utxo)] panics on a
    value of another dynamic type. *)
Definition PutUtxos (self : ExchangeServer BM SM) (cp : string)
    (utxos : utxosValue BU SU) : goResult (ExchangeServer BM SM) :=
  if decide (cp = bitcoin.Type_) then
    match utxos with
    | BtcUtxos btcUtxos =>
        Done (set_btcum self (foldl um_PutUtxo (btcum self) btcUtxos))
    | SkyUtxos _ =>
        Panic "interface conversion: interface {} is []skycoin.Utxo, not []bitcoin.Utxo"
    | NilValue =>
        Panic "interface conversion: interface {} is nil, not []bitcoin.Utxo"
    end
  else if decide (cp = skycoin.Type_) then
    match utxos with
    | SkyUtxos skyUtxos =>
        Done (set_skyum self (foldl um_PutUtxo (skyum self) skyUtxos))
    | BtcUtxos _ =>
        Panic "interface conversion: interface {} is []bitcoin.Utxo, not []skycoin.Utxo"
    | NilValue =>
        Panic "interface conversion: interface {} is nil, not []skycoin.Utxo"
    end
  else Done self.

Definition WatchAddress (self : ExchangeServer BM SM) (cp addr : string)
  : ExchangeServer BM SM :=
  if decide (cp = bitcoin.Type_) then
    set_btcum self (um_WatchAddresses (btcum self) [addr])
  else if decide (cp = skycoin.Type_) then
    set_skyum self (um_WatchAddresses (skyum self) [addr])
  else self.

Definition SaveAccount (self : ExchangeServer BM SM)
  : ExchangeServer BM SM * option error :=
  let '(m, err) := account.Save (Manager self) in (set_Manager self m, err).

Definition IsAdmin (self : ExchangeServer BM SM) (pubkey : string) : bool :=
  GoStrings.Contains (Admins (cfg self)) pubkey.

(** [settleOrder].  [acnt] is the store's own account, so a balance change
    is written to the server's store as soon as it is made; the error of
    [SaveAccount] is dropped, as in the source; [od.Price*od.Amount] is a
    product of [uint64]; the [switch] has no default, so an order that is
    neither a bid nor an ask leaves the server as it is, unsaved. *)
Definition settleOrder (self : ExchangeServer BM SM) (cp : string) (od : order.Order)
  : goResult (ExchangeServer BM SM) :=
  match account.GetAccount (Manager self) (order.AccountID od) with
  | (_, Some _) => Panic "error account id"
  | (None, None) => Panic "invalid memory address or nil pointer dereference"
  | (Some acnt, None) =>
    let pair := GoStrings.Split cp "/" in
    if negb (length pair =? 2)%nat then Panic "error coin pair" else
    let mainCt := nth 0 pair "" in
    let subCt := nth 1 pair "" in
    let store a := set_Manager self (account.update (Manager self) (order.AccountID od) a) in
    match order.Type_ od with
    | order.Bid =>
        match account.IncreaseBalance acnt mainCt (order.Amount od) with
        | (_, Some err) => Panic err
        | (acnt1, None) => Done (fst (SaveAccount (store acnt1)))
        end
    | order.Ask =>
        match account.IncreaseBalance acnt subCt
                (mul64 (order.Price od) (order.Amount od)) with
        | (_, Some err) => Panic err
        | (acnt1, None) =>
            match account.DecreaseBalance acnt1 mainCt (order.Amount od) with
            | (_, Some err) => Panic err
            | (acnt2, None) => Done (fst (SaveAccount (store acnt2)))
            end
        end
    | order.Other _ => Done self
    end
  end.

(** The goroutine [handleOrders] starts for the pair [cp], on the orders it
    receives from the pair's channel, in the order they arrive. *)
Fixpoint handleOrders (self : ExchangeServer BM SM) (cp : string) (ods : list order.Order)
  : goResult (ExchangeServer BM SM) :=
  match ods with
  | [] => Done self
  | od :: ods' =>
      match settleOrder self cp od with
      | Done self' => handleOrders self' cp ods'
      | Panic msg => Panic msg
      end
  end.

(** The server once the stored account [id] has become [a] and
    [SaveAccount] has been called, its error dropped. *)
Definition settled (self : ExchangeServer BM SM) (id : string) (a : account.ExchangeAccount)
  : ExchangeServer BM SM :=
  fst (SaveAccount (set_Manager self (account.update (Manager self) id a))).

(** The server once the stored account [id] has become [a] and been
    saved, or, for [None], the server left as it is. *)
Definition settledOr (self : ExchangeServer BM SM) (id : string)
    (a : option account.ExchangeAccount) : ExchangeServer BM SM :=
  match a with
  | Some a' => settled self id a'
  | None => self
  end.

(** The admin check in the words of the spec: [pubkey] is one of the
    entries of the comma-separated [admins]. *)
Definition is_admin_listed (self : ExchangeServer BM SM) (pubkey : string) : Prop :=
  pubkey ∈ GoStrings.Split (Admins (cfg self)) ",".

(** The failure modes of a reservation in the words of the spec: an error
    of [ChooseUtxos] comes from the chain's reservation. *)
Definition only_reservation_failures (self : ExchangeServer BM SM) (cp : string)
    (amount : N) (tm : Duration) : Prop :=
  ∀ e, snd (snd (ChooseUtxos self cp amount tm)) = Some e →
       snd (snd (um_ChooseUtxos (btcum self) amount tm)) = Some e ∨
       snd (snd (um_ChooseUtxos (skyum self) amount tm)) = Some e.

(** The balance the server's store holds for an account and an asset. *)
Definition balanceOf (self : ExchangeServer BM SM) (id ct : string) : option N :=
  (λ a, account.GetBalance a ct) <$> (account.Accounts (Manager self) !! id).

End WithUtxoManagers.

End server.

(** ** Scenario S1 of the spec: a basic match

    Accounts A and B on the pair "bitcoin/skycoin"; A holds 1000 bitcoin,
    B holds 5000 skycoin; A's ask and B's bid, both at price 5 for amount
    100, have been matched and come out of the pair's channel. *)

Module S1.

Definition A : account.ExchangeAccount :=
  {| account.ID := "A"; account.Balance := {[ "bitcoin" := 1000%N ]};
     account.Addresses := ∅ |}.

Definition B : account.ExchangeAccount :=
  {| account.ID := "B"; account.Balance := {[ "skycoin" := 5000%N ]};
     account.Addresses := ∅ |}.

Definition accounts : account.Manager :=
  {| account.Accounts := {[ "A" := A; "B" := B ]}; account.Snapshot := ∅;
     account.DiskError := None |}.

Definition config : server.Config :=
  {| server.Server := "localhost"; server.Port := 8080; server.BtcFee := 10000;
     server.DataDir := ".skycoin-exchange"; server.Seed := "seed";
     server.Seckey := "seckey"; server.UtxoPoolSize := 1000;
     server.Admins := "02aabbccdd,03eeff0011";
     server.NodeAddresses := {[ "skycoin" := "localhost:6420" ]};
     server.HttpProf := false |}.

Definition env : server.Env :=
  {| server.env_accounts := server.Loaded accounts;
     server.env_wallets :=
       ({[ "bitcoin" := ["1BtcAddr"]; "skycoin" := ["SkyAddr"] ]}, None);
     server.env_orders := server.NotExist |}.

Definition new : goResult (server.ExchangeServer pool.Pool pool.Pool) :=
  server.New pool.NewUtxoManager (λ _, pool.NewUtxoManager) env config.

Definition serv : server.ExchangeServer pool.Pool pool.Pool :=
  match new with
  | Done s => s
  | Panic _ =>
      {| server.Manager := accounts; server.btcum := pool.NewUtxoManager 0 [];
         server.skyum := pool.NewUtxoManager 0 []; server.orderManager := order.NewManager;
         server.cfg := config; server.wallets_ := ∅; server.orderHandlers := ∅;
         server.coins := ∅ |}
  end.

Definition ask : order.Order :=
  {| order.OrderID := 1; order.AccountID := "A"; order.Type_ := order.Ask;
     order.Price := 5; order.Amount := 100 |}.

Definition bid : order.Order :=
  {| order.OrderID := 2; order.AccountID := "B"; order.Type_ := order.Bid;
     order.Price := 5; order.Amount := 100 |}.

(** An order of an account the store does not hold, and an ask for more
    bitcoin than A has. *)
Definition stray : order.Order :=
  {| order.OrderID := 3; order.AccountID := "C"; order.Type_ := order.Bid;
     order.Price := 5; order.Amount := 100 |}.

Definition overdrawn : order.Order :=
  {| order.OrderID := 4; order.AccountID := "A"; order.Type_ := order.Ask;
     order.Price := 5; order.Amount := 2000 |}.

(** The balances of [(A.bitcoin, A.skycoin, B.bitcoin, B.skycoin)] once the
    goroutine of the pair has settled [ods]. *)
Definition balancesAfter (ods : list order.Order) : option (list (option N)) :=
  match server.handleOrders serv "bitcoin/skycoin" ods with
  | Done s =>
      Some [server.balanceOf s "A" "bitcoin"; server.balanceOf s "A" "skycoin";
            server.balanceOf s "B" "bitcoin"; server.balanceOf s "B" "skycoin"]
  | Panic _ => None
  end.

End S1.

(** ** A server with funded pools

    Both chains' pools hold UTXOs of 5, 5 and 5 units (the pool of the
    spec's scenario S4). *)

Module S5.

Definition utxo (id : string) : pool.Utxo :=
  {| pool.outpoint := id; pool.address := "addr"; pool.value := 5 |}.

Definition funded : pool.Pool :=
  {| pool.live := [utxo "tx0:0"; utxo "tx1:0"; utxo "tx2:0"];
     pool.reserved := []; pool.watched := ["addr"] |}.

Definition serv : server.ExchangeServer pool.Pool pool.Pool :=
  server.set_skyum (server.set_btcum S1.serv funded) funded.

End S5.

(** ** Gateways to register, and a server whose fee is negative *)

Module S6.

Definition btc : coin.Gateway := {| coin.Type_ := "bitcoin"; coin.Symbol := "BTC" |}.
Definition sky : coin.Gateway := {| coin.Type_ := "skycoin"; coin.Symbol := "SKY" |}.
Definition mzc : coin.Gateway := {| coin.Type_ := "mzcoin"; coin.Symbol := "MZC" |}.

(** The server once bitcoin has been registered. *)
Definition withBtc : server.ExchangeServer pool.Pool pool.Pool :=
  fst (server.BindCoins S1.serv [btc]).

Definition negativeFee : server.ExchangeServer pool.Pool pool.Pool :=
  {| server.Manager := server.Manager S1.serv; server.btcum := server.btcum S1.serv;
     server.skyum := server.skyum S1.serv;
     server.orderManager := server.orderManager S1.serv;
     server.cfg :=
       {| server.Server := "localhost"; server.Port := 8080; server.BtcFee := -1;
          server.DataDir := ".skycoin-exchange"; server.Seed := "seed";
          server.Seckey := "seckey"; server.UtxoPoolSize := 1000;
          server.Admins := ""; server.NodeAddresses := ∅;
          server.HttpProf := false |};
     server.wallets_ := server.wallets_ S1.serv;
     server.orderHandlers := server.orderHandlers S1.serv;
     server.coins := server.coins S1.serv |}.

End S6.

(** ** Package [mobile] (the mobile-facing wrappers)

    The package keeps its configuration and its coins in two package-level
    variables; they are the [Globals] here, next to the public key held by
    [sknet] and the directory held by [wallet], which [initConfig] sets. *)

Module mobile.

(** The option [Fee(fee)] that [SendBtc] hands to [Send]. *)
Inductive SendOption : Type := Fee (fee : string).

(** A [Coiner], used through its methods.  The chains' answers are those
    of one moment: a method is a function of its arguments. *)
Module Coiner.
Record t : Type := {
  Name : string;
  ValidateAddr : string → option error;
  GetBalance : list string → N * option error;
  Send : string → string → string → list SendOption → string * option error;
  GetTransactionByID : string → string * option error;
  GetOutputByID : string → string * option error
}.
End Coiner.

Record Config : Type := {
  WalletDirPath : string;
  ServerAddr : string;
  ServerPubkey : string
}.

(** [NewConfig]: the zero [Config]. *)
Definition NewConfig : Config :=
  {| WalletDirPath := ""; ServerAddr := ""; ServerPubkey := "" |}.

Record Globals : Type := {
  config : Config;
  coinMap : gmap string Coiner.t;
  sknet_pubkey : string;
  wallet_dir : string
}.

(** The package before [Init]: a zero [config] and a nil [coinMap], which
    reads as an empty map. *)
Definition start : Globals :=
  {| config := NewConfig; coinMap := ∅; sknet_pubkey := ""; wallet_dir := "" |}.

(** The double quote. *)
Definition dquote : string := String "034"%char EmptyString.

(** [json.Marshal] of [struct { Balance uint64 `json:"balance"` }]: one
    member, the balance in decimal.  It has no error for such a value. *)
Definition marshalBalance (bal : N) : string * option error :=
  ("{" +:+ dquote +:+ "balance" +:+ dquote +:+ ":" +:+ pretty bal +:+ "}", None).

(** [fmt.Errorf("%s is not supported", coinType)]. *)
Definition notSupported (coinType : string) : error :=
  coinType +:+ " is not supported".

Section WithPackages.

(** [newCoin] and [newBitcoin] of this package and [wallet.GetAddresses],
    all declared outside the sources. *)
Variable newCoin : string → string → Coiner.t.
Variable newBitcoin : string → Coiner.t.
Variable wallet_GetAddresses : string → list string * option error.

(** [initConfig]: [sknet.SetPubkey] is called for a non-empty pubkey only;
    the coin map is made anew and filled in the order of the arguments. *)
Definition initConfig (g : Globals) (cfg : Config) (coins : list Coiner.t) : Globals :=
  {| config := cfg;
     coinMap := foldl (λ m c, <[Coiner.Name c := c]> m) ∅ coins;
     sknet_pubkey :=
       if decide (ServerPubkey cfg ≠ "") then ServerPubkey cfg else sknet_pubkey g;
     wallet_dir := WalletDirPath cfg |}.

(** [Init]: the arguments of [initConfig] are evaluated before the call, so
    the coins are made with the [ServerAddr] of the [config] stored so
    far. *)
Definition Init (g : Globals) (cfg : Config) : Globals :=
  initConfig g cfg
    [newCoin "skycoin" (ServerAddr (config g));
     newCoin "mzcoin" (ServerAddr (config g));
     newBitcoin (ServerAddr (config g))].

Definition GetBalance (g : Globals) (coinType address : string) : string * option error :=
  match coinMap g !! coinType with
  | None => ("", Some (notSupported coinType))
  | Some coin =>
      match Coiner.ValidateAddr coin address with
      | Some err => ("", Some err)
      | None =>
          match Coiner.GetBalance coin [address] with
          | (_, Some err) => ("", Some err)
          | (bal, None) =>
              match marshalBalance bal with
              | (_, Some err) => ("", Some err)
              | (d, None) => (d, None)
              end
          end
      end
  end.

Definition GetWalletBalance (g : Globals) (coinType wltID : string)
  : string * option error :=
  match coinMap g !! coinType with
  | None => ("", Some (notSupported coinType))
  | Some coin =>
      match wallet_GetAddresses wltID with
      | (_, Some err) => ("", Some err)
      | (addrs, None) =>
          match Coiner.GetBalance coin addrs with
          | (_, Some err) => ("", Some err)
          | (bal, None) =>
              match marshalBalance bal with
              | (_, Some err) => ("", Some err)
              | (d, None) => (d, None)
              end
          end
      end
  end.

Definition SendSky (g : Globals) (walletID toAddr amount : string) : string * option error :=
  match coinMap g !! "skycoin" with
  | None => ("", Some "skycoin is not supported")
  | Some coin => Coiner.Send coin walletID toAddr amount []
  end.

Definition SendMzc (g : Globals) (walletID toAddr amount : string) : string * option error :=
  match coinMap g !! "mzcoin" with
  | None => ("", Some "mzcoin is not supported")
  | Some coin => Coiner.Send coin walletID toAddr amount []
  end.

Definition SendBtc (g : Globals) (walletID toAddr amount fee : string)
  : string * option error :=
  match coinMap g !! "bitcoin" with
  | None => ("", Some "bitcoin is not supported")
  | Some coin => Coiner.Send coin walletID toAddr amount [Fee fee]
  end.

Definition GetTransactionByID (g : Globals) (coinType txid : string)
  : string * option error :=
  match coinMap g !! coinType with
  | None => ("", Some (notSupported coinType))
  | Some coin => Coiner.GetTransactionByID coin txid
  end.

Definition GetOutputByID (g : Globals) (coinType id : string) : string * option error :=
  match coinMap g !! coinType with
  | None => ("", Some (notSupported coinType))
  | Some coin => Coiner.GetOutputByID coin id
  end.

Definition ValidateAddress (g : Globals) (coinType addr : string) : bool * option error :=
  match coinMap g !! coinType with
  | None => (false, Some (notSupported coinType))
  | Some coin =>
      match Coiner.ValidateAddr coin addr with
      | Some err => (false, Some err)
      | None => (true, None)
      end
  end.

End WithPackages.

End mobile.

(** ** A phone with three coins

    Coins that accept the addresses starting with "S", report a balance of
    7 units per address and send only when they know a server. *)

Module S9.

Definition coinOf (name addr : string) : mobile.Coiner.t :=
  {| mobile.Coiner.Name := name;
     mobile.Coiner.ValidateAddr := λ a,
       if GoStrings.HasPrefix a "S" then None else Some "invalid address";
     mobile.Coiner.GetBalance := λ addrs, (7 * N.of_nat (length addrs), None)%N;
     mobile.Coiner.Send := λ w to amt opts,
       if decide (addr = "") then ("", Some "no server") else ("txid-" +:+ amt, None);
     mobile.Coiner.GetTransactionByID := λ txid, ("tx " +:+ txid, None);
     mobile.Coiner.GetOutputByID := λ id, ("out " +:+ id, None) |}.

Definition newCoin : string → string → mobile.Coiner.t := coinOf.
Definition newBitcoin : string → mobile.Coiner.t := coinOf "bitcoin".

Definition cfg : mobile.Config :=
  {| mobile.WalletDirPath := "wallets"; mobile.ServerAddr := "10.0.0.1:8080";
     mobile.ServerPubkey := "" |}.

Definition once : mobile.Globals := mobile.Init newCoin newBitcoin mobile.start cfg.
Definition twice : mobile.Globals := mobile.Init newCoin newBitcoin once cfg.

End S9.

(** ** Orders at the edges

    An ask whose price × amount is 2^64, an order that is neither a bid nor
    an ask, and the server of S1 on a disk that refuses writes. *)

Module S10.

Definition orElse {A : Type} (r : goResult A) (a : A) : A :=
  match r with Done a' => a' | Panic _ => a end.

Definition wrapAsk : order.Order :=
  {| order.OrderID := 5; order.AccountID := "A"; order.Type_ := order.Ask;
     order.Price := 2 ^ 63; order.Amount := 2 |}.

Definition other : order.Order :=
  {| order.OrderID := 6; order.AccountID := "A"; order.Type_ := order.Other 2;
     order.Price := 5; order.Amount := 100 |}.

Definition afterWrap : server.ExchangeServer pool.Pool pool.Pool :=
  orElse (server.settleOrder S1.serv "bitcoin/skycoin" wrapAsk) S1.serv.

Definition afterOthers : server.ExchangeServer pool.Pool pool.Pool :=
  orElse (server.handleOrders S1.serv "bitcoin/skycoin" [other; S1.ask; other]) S1.serv.

Definition diskFull : server.ExchangeServer pool.Pool pool.Pool :=
  server.set_Manager S1.serv
    {| account.Accounts := account.Accounts S1.accounts;
       account.Snapshot := account.Snapshot S1.accounts;
       account.DiskError := Some "no space left on device" |}.

Definition afterUnsaved : server.ExchangeServer pool.Pool pool.Pool :=
  orElse (server.settleOrder diskFull "bitcoin/skycoin" S1.bid) diskFull.

End S10.

(** ** Scenario S1, settled *)

Module S7.

Definition orElse {A : Type} (r : goResult A) (a : A) : A :=
  match r with Done a' => a' | Panic _ => a end.

(** The server of S1 once B's bid is settled, and once both orders are. *)
Definition afterBid : server.ExchangeServer pool.Pool pool.Pool :=
  orElse (server.settleOrder S1.serv "bitcoin/skycoin" S1.bid) S1.serv.

Definition afterBoth : server.ExchangeServer pool.Pool pool.Pool :=
  orElse (server.handleOrders S1.serv "bitcoin/skycoin" [S1.ask; S1.bid]) S1.serv.

End S7.

(** ** A server with bitcoin and skycoin registered *)

Module S8.

Definition bound : server.ExchangeServer pool.Pool pool.Pool :=
  fst (server.BindCoins S1.serv [S6.btc; S6.sky]).

End S8.

(** * Properties *)

(** ** Strings *)

Section GoStringsFacts.
Import GoStrings.

Lemma HasPrefix_empty s : HasPrefix s "" = true.
Proof. by destruct s. Qed.

Lemma Contains_empty s : Contains s "" = true.
Proof. destruct s; by rw /= ?HasPrefix_empty. Qed.

Lemma Contains_tail c s substr :
  Contains s substr = true → Contains (String c s) substr = true.
Proof. intros H. cbn [Contains]. rw H. apply orb_true_r. Qed.

Lemma Split_nonempty s sep : Split s sep ≠ [].
Proof.
  destruct s as [|c s]; cbn [Split]; [done|].
  destruct (Ascii.eqb c sep); [done|]. by destruct (Split s sep).
Qed.

(** The first piece of a split starts the string. *)
Lemma Split_head_prefix s sep piece pieces :
  Split s sep = piece :: pieces → HasPrefix s piece = true.
Proof.
  revert piece pieces. induction s as [|c s IH]; intros piece pieces; cbn [Split].
  - by intros [= <- <-].
  - destruct (Ascii.eqb c sep); [by intros [= <- <-]|].
    destruct (Split s sep) as [|p ps] eqn:Hs; intros [= <- <-]; cbn [HasPrefix].
    + by rw Ascii.eqb_refl HasPrefix_empty.
    + rw Ascii.eqb_refl. by eapply IH.
Qed.

(** Every piece of a split occurs in the string. *)
Lemma Split_Contains s sep piece :
  piece ∈ Split s sep → Contains s piece = true.
Proof.
  revert piece. induction s as [|c s IH]; intros piece; cbn [Split].
  - intros ->%list_elem_of_singleton. done.
  - destruct (Ascii.eqb c sep).
    + intros [->|Hin]%elem_of_cons; [apply Contains_empty|].
      by apply Contains_tail, IH.
    + destruct (Split s sep) as [|p ps] eqn:Hs; [by destruct (Split_nonempty s sep)|].
      intros [->|Hin]%elem_of_cons.
      * cbn [Contains HasPrefix]. rw Ascii.eqb_refl.
        by rw (Split_head_prefix _ _ _ _ Hs).
      * apply Contains_tail, IH. by right.
Qed.

End GoStringsFacts.

(** ** The account store *)

Section AccountFacts.
Import account.

Lemma GetBalance_setBalance a ct v ct' :
  GetBalance (setBalance a ct v) ct' = if decide (ct' = ct) then v else GetBalance a ct'.
Proof.
  rw /GetBalance /setBalance /=. case_decide as Hct.
  - subst. by rw lookup_insert_eq.
  - by rw lookup_insert_ne.
Qed.

Lemma DecreaseBalance_ok a ct amt :
  (amt ≤ GetBalance a ct)%N →
  DecreaseBalance a ct amt = (setBalance a ct (GetBalance a ct - amt), None).
Proof. intros H. rw /DecreaseBalance. by destruct (N.ltb_spec (GetBalance a ct) amt); [lia|]. Qed.

Lemma DecreaseBalance_insufficient a ct amt :
  (GetBalance a ct < amt)%N →
  DecreaseBalance a ct amt = (a, Some "insufficient_balance").
Proof. intros H. rw /DecreaseBalance. by destruct (N.ltb_spec (GetBalance a ct) amt); [|lia]. Qed.

End AccountFacts.

(** ** Settlement of matched orders *)

Section Settlement.
Import server.
Context {BM BU SM SU : Type}.
Context {btc_um : UtxoManager BM BU} {sky_um : UtxoManager SM SU}.
Implicit Types (self : ExchangeServer BM SM) (od : order.Order) (cp : string).

Lemma GetAccount_known self id acnt :
  account.Accounts (Manager self) !! id = Some acnt →
  account.GetAccount (Manager self) id = (Some acnt, None).
Proof. intros H. by rw /account.GetAccount H. Qed.

Lemma GetAccount_unknown self id :
  account.Accounts (Manager self) !! id = None →
  account.GetAccount (Manager self) id = (None, Some "unknown_account").
Proof. intros H. by rw /account.GetAccount H. Qed.

Lemma mul64_le a b : (mul64 a b ≤ a * b)%N.
Proof. apply N.Div0.mod_le. Qed.

Lemma mul64_small a b : (a * b < 2 ^ 64)%N → mul64 a b = (a * b)%N.
Proof. apply N.mod_small. Qed.

(** C2, as the code has it: a matched order settled on the pair
    [mainCt/subCt] for a known account.  A bid is always settled: the
    account's balance of [mainCt] grows by the amount and no other balance
    of it changes.  An ask whose price × amount fits in 64 bits and whose
    amount the account can pay is settled: the balance of [subCt] grows by
    price × amount and the balance of [mainCt] shrinks by the amount, no
    other balance changes.  In both cases no other account changes, and the
    store is saved: when the disk takes the write, the snapshot on disk is
    the store. *)
Theorem settleOrder_effect self cp mainCt subCt od acnt :
  GoStrings.Split cp "/" = [mainCt; subCt] →
  account.Accounts (Manager self) !! order.AccountID od = Some acnt →
  (order.Type_ od = order.Bid →
   ∃ self',
     settleOrder self cp od = Done self' ∧
     (∀ ct, balanceOf self' (order.AccountID od) ct =
            Some (account.GetBalance acnt ct
                  + (if decide (ct = mainCt) then order.Amount od else 0))%N) ∧
     (∀ id, id ≠ order.AccountID od →
            account.Accounts (Manager self') !! id = account.Accounts (Manager self) !! id) ∧
     (account.DiskError (Manager self) = None →
      account.Snapshot (Manager self') = account.Accounts (Manager self'))) ∧
  (order.Type_ od = order.Ask →
   (order.Price od * order.Amount od < 2 ^ 64)%N →
   (order.Amount od ≤
      account.GetBalance acnt mainCt
      + (if decide (mainCt = subCt) then order.Price od * order.Amount od else 0))%N →
   ∃ self',
     settleOrder self cp od = Done self' ∧
     (∀ ct, ∃ bal,
        balanceOf self' (order.AccountID od) ct = Some bal ∧
        (bal + (if decide (ct = mainCt) then order.Amount od else 0))%N =
        (account.GetBalance acnt ct
         + (if decide (ct = subCt) then order.Price od * order.Amount od else 0))%N) ∧
     (∀ id, id ≠ order.AccountID od →
            account.Accounts (Manager self') !! id = account.Accounts (Manager self) !! id) ∧
     (account.DiskError (Manager self) = None →
      account.Snapshot (Manager self') = account.Accounts (Manager self'))).
Proof.
  intros Hpair Hacnt. split.
  - intros Hbid. rw /settleOrder (GetAccount_known _ _ _ Hacnt) Hpair Hbid /=.
    eexists. split; [reflexivity|]. split_and!.
    + intros ct. rw /balanceOf /SaveAccount /account.Save /=.
      destruct (account.DiskError (Manager self)); rw /= lookup_insert_eq /=;
        rw GetBalance_setBalance; case_decide; subst; f_equal; lia.
    + intros id Hid. rw /SaveAccount /account.Save /=.
      by destruct (account.DiskError (Manager self)); rw /= lookup_insert_ne.
    + intros Hdisk. by rw /SaveAccount /account.Save /= Hdisk.
  - intros Hask Hfit Hpay.
    rw /settleOrder (GetAccount_known _ _ _ Hacnt) Hpair Hask /= (mul64_small _ _ Hfit).
    set (acnt1 := account.setBalance acnt subCt _).
    assert (account.GetBalance acnt1 mainCt =
            (account.GetBalance acnt mainCt
             + (if decide (mainCt = subCt) then order.Price od * order.Amount od else 0))%N)
      as Hmain.
    { rw /acnt1 GetBalance_setBalance. case_decide; subst; lia. }
    rw DecreaseBalance_ok; [lia|].
    eexists. split; [reflexivity|]. split_and!.
    + intros ct. eexists. split.
      { rw /balanceOf /SaveAccount /account.Save /=.
        by destruct (account.DiskError (Manager self)); rw /= lookup_insert_eq. }
      rw GetBalance_setBalance.
      destruct (decide (ct = mainCt)) as [->|Hne].
      * rw Hmain. repeat case_decide; subst; lia.
      * rw /acnt1 GetBalance_setBalance. repeat case_decide; subst; lia.
    + intros id Hid. rw /SaveAccount /account.Save /=.
      by destruct (account.DiskError (Manager self)); rw /= lookup_insert_ne.
    + intros Hdisk. by rw /SaveAccount /account.Save /= Hdisk.
Qed.

(** C3: settlement panics, and with it the process stops, when the pair
    does not split on "/" into exactly two names, when the account id is
    unknown, and when an ask asks for more of the main asset than the
    account holds once its sub asset has been credited. *)
Theorem settleOrder_aborts self cp od :
  (length (GoStrings.Split cp "/") ≠ 2 → ∃ msg, settleOrder self cp od = Panic msg) ∧
  (account.Accounts (Manager self) !! order.AccountID od = None →
   settleOrder self cp od = Panic "error account id") ∧
  (∀ acnt mainCt subCt,
     GoStrings.Split cp "/" = [mainCt; subCt] →
     account.Accounts (Manager self) !! order.AccountID od = Some acnt →
     order.Type_ od = order.Ask →
     (account.GetBalance acnt mainCt
      + (if decide (mainCt = subCt) then order.Price od * order.Amount od else 0)
      < order.Amount od)%N →
     ∃ msg, settleOrder self cp od = Panic msg).
Proof.
  split_and!.
  - intros Hlen. rw /settleOrder /account.GetAccount.
    destruct (account.Accounts (Manager self) !! order.AccountID od); [|by eexists].
    destruct (Nat.eqb_spec (length (GoStrings.Split cp "/")) 2); [done|by eexists].
  - intros Hacnt. by rw /settleOrder (GetAccount_unknown _ _ Hacnt).
  - intros acnt mainCt subCt Hpair Hacnt Hask Hshort.
    rw /settleOrder (GetAccount_known _ _ _ Hacnt) Hpair Hask /=.
    rw DecreaseBalance_insufficient; [|by eexists].
    pose proof (mul64_le (order.Price od) (order.Amount od)).
    rw GetBalance_setBalance. case_decide; subst; lia.
Qed.

End Settlement.

Lemma settleOrder_effect_witness :
  GoStrings.Split "bitcoin/skycoin" "/" = ["bitcoin"; "skycoin"] ∧
  account.Accounts (server.Manager S1.serv) !! "A" = Some S1.A ∧
  account.Accounts (server.Manager S1.serv) !! "B" = Some S1.B ∧
  (5 * 100 < 2 ^ 64)%N ∧
  account.DiskError (server.Manager S1.serv) = None ∧
  (∃ self',
     server.settleOrder S1.serv "bitcoin/skycoin" S1.ask = Done self' ∧
     (∀ ct, ∃ bal,
        server.balanceOf self' "A" ct = Some bal ∧
        (bal + (if decide (ct = "bitcoin") then 100 else 0))%N =
        (account.GetBalance S1.A ct + (if decide (ct = "skycoin") then 5 * 100 else 0))%N) ∧
     account.Accounts (server.Manager self') !! "B" = Some S1.B ∧
     account.Snapshot (server.Manager self') = account.Accounts (server.Manager self')) ∧
  (∃ self',
     server.settleOrder S1.serv "bitcoin/skycoin" S1.bid = Done self' ∧
     (∀ ct, server.balanceOf self' "B" ct =
            Some (account.GetBalance S1.B ct
                  + (if decide (ct = "bitcoin") then 100 else 0))%N) ∧
     account.Accounts (server.Manager self') !! "A" = Some S1.A ∧
     account.Snapshot (server.Manager self') = account.Accounts (server.Manager self')).
Proof.
  assert (account.Accounts (server.Manager S1.serv) !! "A" = Some S1.A) as HA.
  { vm_compute. reflexivity. }
  assert (account.Accounts (server.Manager S1.serv) !! "B" = Some S1.B) as HB.
  { vm_compute. reflexivity. }
  split; [reflexivity|]. split; [exact HA|]. split; [exact HB|].
  split; [vm_compute; reflexivity|]. split; [reflexivity|]. split.
  - destruct (proj2 (settleOrder_effect S1.serv "bitcoin/skycoin" "bitcoin" "skycoin"
                       S1.ask S1.A eq_refl HA) eq_refl)
      as (self' & Hrun & Hbal & Hother & Hsaved).
    + vm_compute. reflexivity.
    + vm_compute. discriminate.
    + exists self'. split; [exact Hrun|]. split; [exact Hbal|]. split.
      * rw (Hother "B" ltac:(discriminate)). exact HB.
      * apply Hsaved. reflexivity.
  - destruct (proj1 (settleOrder_effect S1.serv "bitcoin/skycoin" "bitcoin" "skycoin"
                       S1.bid S1.B eq_refl HB) eq_refl)
      as (self' & Hrun & Hbal & Hother & Hsaved).
    exists self'. split; [exact Hrun|]. split; [exact Hbal|]. split.
    + rw (Hother "A" ltac:(discriminate)). exact HA.
    + apply Hsaved. reflexivity.
Defined.

(** C2, as the spec has it, fails.  An ask of price 2^63 and amount 2 is
    settled with no skycoin credited, where price × amount is 2^64; and on
    a disk that refuses the write a bid is settled all the same, the
    snapshot on disk left behind the store. *)
Lemma settleOrder_wraps_and_drops_save_error :
  (server.settleOrder S1.serv "bitcoin/skycoin" S10.wrapAsk = Done S10.afterWrap ∧
   server.balanceOf S10.afterWrap "A" "skycoin" = Some 0%N ∧
   server.balanceOf S10.afterWrap "A" "skycoin"
   ≠ Some (account.GetBalance S1.A "skycoin"
           + order.Price S10.wrapAsk * order.Amount S10.wrapAsk)%N) ∧
  (server.settleOrder S10.diskFull "bitcoin/skycoin" S1.bid = Done S10.afterUnsaved ∧
   account.Snapshot (server.Manager S10.afterUnsaved)
   ≠ account.Accounts (server.Manager S10.afterUnsaved)).
Proof.
  split.
  - split; [vm_compute; reflexivity|]. split; [vm_compute; reflexivity|].
    vm_compute. discriminate.
  - split; [vm_compute; reflexivity|].
    intros H. apply (f_equal (λ m, m !! "B")) in H. vm_compute in H. discriminate.
Qed.

Lemma settleOrder_aborts_witness :
  length (GoStrings.Split "bitcoin" "/") ≠ 2 ∧
  (∃ msg, server.settleOrder S1.serv "bitcoin" S1.ask = Panic msg) ∧
  account.Accounts (server.Manager S1.serv) !! "C" = None ∧
  server.settleOrder S1.serv "bitcoin/skycoin" S1.stray = Panic "error account id" ∧
  (account.GetBalance S1.A "bitcoin" + 0 < 2000)%N ∧
  ∃ msg, server.settleOrder S1.serv "bitcoin/skycoin" S1.overdrawn = Panic msg.
Proof.
  split; [vm_compute; discriminate|].
  split; [apply (proj1 (settleOrder_aborts S1.serv "bitcoin" S1.ask));
          vm_compute; discriminate|].
  split; [vm_compute; reflexivity|].
  split; [apply (proj1 (proj2 (settleOrder_aborts S1.serv "bitcoin/skycoin" S1.stray)));
          vm_compute; reflexivity|].
  split; [vm_compute; reflexivity|].
  apply (proj2 (proj2 (settleOrder_aborts S1.serv "bitcoin/skycoin" S1.overdrawn))
           S1.A "bitcoin" "skycoin");
    [reflexivity | vm_compute; reflexivity | reflexivity | vm_compute; reflexivity].
Defined.

(** ** Scenario S1 *)

Lemma S1_new : S1.new = Done S1.serv.
Proof. by vm_compute. Qed.

(** C1: in scenario S1, whichever of the two matched orders leaves the
    channel first, settlement ends with A.bitcoin = 900, A.skycoin = 500
    and B.bitcoin = 100, but with B.skycoin = 5000, not 4500: the bid is
    credited and never charged, and the accounts hold 5500 skycoin where
    they held 5000. *)
Theorem S1_settled_balances :
  S1.balancesAfter [S1.ask; S1.bid]
    = Some [Some 900%N; Some 500%N; Some 100%N; Some 5000%N] ∧
  S1.balancesAfter [S1.bid; S1.ask]
    = Some [Some 900%N; Some 500%N; Some 100%N; Some 5000%N] ∧
  S1.balancesAfter [S1.ask; S1.bid]
    ≠ Some [Some 900%N; Some 500%N; Some 100%N; Some 4500%N].
Proof. split_and!; by vm_compute. Qed.

(** ** The admin check *)

Section Admin.
Import server.
Context {BM SM : Type}.
Implicit Types (self : ExchangeServer BM SM).

(** A pubkey listed in the comma-separated [Admins] is an admin. *)
Lemma IsAdmin_listed self pubkey :
  is_admin_listed self pubkey → IsAdmin self pubkey = true.
Proof. apply Split_Contains. Qed.

End Admin.

(** C4: with the admins "02aabbccdd,03eeff0011" configured, [IsAdmin]
    answers true for the empty pubkey and for "aabb", a proper substring of
    the first admin's pubkey, though neither is an entry of the list. *)
Theorem IsAdmin_accepts_unlisted :
  server.Admins (server.cfg S1.serv) = "02aabbccdd,03eeff0011" ∧
  server.IsAdmin S1.serv "" = true ∧ ¬ server.is_admin_listed S1.serv "" ∧
  server.IsAdmin S1.serv "aabb" = true ∧ ¬ server.is_admin_listed S1.serv "aabb".
Proof.
  split_and!; try by vm_compute.
  all: rw /server.is_admin_listed; intros H;
    by repeat (apply elem_of_cons in H as [H|H]; [done|]); apply elem_of_nil in H.
Qed.

(** ** Registration of coins *)

Section BindCoins.
Import server.
Context {BM SM : Type}.
Implicit Types (serv : ExchangeServer BM SM) (m : gmap string coin.Gateway)
  (c g : coin.Gateway) (cs pre post : list coin.Gateway).

Lemma BindCoins_range_conflict m cs :
  (∃ c, c ∈ cs ∧ is_Some (m !! coin.Type_ c)) →
  ∃ m' c', c' ∈ cs ∧ BindCoins_range m cs = (m', Some (conflict c')).
Proof.
  revert m. induction cs as [|c0 cs IH]; intros m [c [Hin Hreg]].
  - by apply elem_of_nil in Hin.
  - cbn [BindCoins_range]. destruct (m !! coin.Type_ c0) eqn:H0.
    + exists m, c0. split; [by left|done].
    + apply elem_of_cons in Hin as [->|Hin]; [by rw H0 in Hreg; destruct Hreg|].
      destruct (IH (<[coin.Type_ c0:=c0]> m)) as (m' & c' & Hc' & Hrun).
      { exists c. split; [done|]. rw lookup_insert. by case_decide. }
      exists m', c'. split; [by right|done].
Qed.

Lemma BindCoins_range_fresh m cs :
  (∀ c, c ∈ cs → m !! coin.Type_ c = None) →
  NoDup (coin.Type_ <$> cs) →
  ∃ m', BindCoins_range m cs = (m', None) ∧
        (∀ c, c ∈ cs → m' !! coin.Type_ c = Some c) ∧
        (∀ ct, ct ∉ coin.Type_ <$> cs → m' !! ct = m !! ct).
Proof.
  revert m. induction cs as [|c0 cs IH]; intros m Hfresh Hnodup.
  - exists m. split_and!; [done| |done]. by intros c ?%elem_of_nil.
  - cbn [BindCoins_range]. rw Hfresh; [by left|].
    rw fmap_cons in Hnodup. apply NoDup_cons in Hnodup as [Hc0 Hnodup].
    destruct (IH (<[coin.Type_ c0:=c0]> m)) as (m' & Hrun & Hreg & Hrest); [|done|].
    { intros c Hc. rw lookup_insert_ne; [|by apply Hfresh; right].
      intros Heq. apply Hc0. rw Heq. by apply list_elem_of_fmap_2. }
    exists m'. split_and!; [done| |].
    + intros c [->|Hc]%elem_of_cons; [|by apply Hreg].
      by rw Hrest // lookup_insert_eq.
    + intros ct Hct. rw fmap_cons in Hct. apply not_elem_of_cons in Hct as [Hne Hct].
      by rw Hrest // lookup_insert_ne.
Qed.

(** C6: [BindCoins] returns the error "<type> coin already registered"
    whenever one of its arguments has the type of a gateway registered
    before the call; it returns no error, and leaves every argument
    registered, when the arguments' types are unregistered and pairwise
    distinct. *)
Theorem BindCoins_conflict_or_registered serv cs :
  ((∃ c, c ∈ cs ∧ is_Some (coins serv !! coin.Type_ c)) →
   ∃ serv' c', c' ∈ cs ∧ BindCoins serv cs = (serv', Some (conflict c'))) ∧
  ((∀ c, c ∈ cs → coins serv !! coin.Type_ c = None) →
   NoDup (coin.Type_ <$> cs) →
   ∃ serv', BindCoins serv cs = (serv', None) ∧
            ∀ c, c ∈ cs → coins serv' !! coin.Type_ c = Some c).
Proof.
  split.
  - intros Hreg. destruct (BindCoins_range_conflict _ _ Hreg) as (m' & c' & Hc' & Hrun).
    exists (set_coins serv m'), c'. split; [done|]. by rw /BindCoins Hrun.
  - intros Hfresh Hnodup.
    destruct (BindCoins_range_fresh _ _ Hfresh Hnodup) as (m' & Hrun & Hreg & _).
    exists (set_coins serv m'). split; [by rw /BindCoins Hrun|done].
Qed.

Lemma BindCoins_range_app m m1 pre cs :
  BindCoins_range m pre = (m1, None) →
  BindCoins_range m (pre ++ cs) = BindCoins_range m1 cs.
Proof.
  revert m. induction pre as [|c0 pre IH]; intros m; cbn [BindCoins_range app].
  - by intros [= ->].
  - destruct (m !! coin.Type_ c0); [done|]. apply IH.
Qed.

(** C9: when the gateways [pre] are unregistered and pairwise distinct and
    the next argument [c] has a type that is registered by then (before the
    call, or by one of [pre]), [BindCoins] returns the error for [c] and
    leaves every gateway of [pre] registered, next to all that was
    registered before. *)
Theorem BindCoins_not_atomic serv pre c post :
  (∀ g, g ∈ pre → coins serv !! coin.Type_ g = None) →
  NoDup (coin.Type_ <$> pre) →
  is_Some (coins serv !! coin.Type_ c) ∨ coin.Type_ c ∈ coin.Type_ <$> pre →
  ∃ serv',
    BindCoins serv (pre ++ c :: post) = (serv', Some (conflict c)) ∧
    (∀ g, g ∈ pre → coins serv' !! coin.Type_ g = Some g) ∧
    (∀ ct g, coins serv !! ct = Some g → coins serv' !! ct = Some g).
Proof.
  intros Hfresh Hnodup Hc.
  destruct (BindCoins_range_fresh _ _ Hfresh Hnodup) as (m1 & Hrun & Hreg & Hrest).
  assert (is_Some (m1 !! coin.Type_ c)) as [g0 Hg0].
  { destruct Hc as [Hc|Hc].
    - destruct (decide (coin.Type_ c ∈ coin.Type_ <$> pre)) as [Hin|Hnin].
      + apply list_elem_of_fmap in Hin as (g & -> & Hg). rw Hreg //.
      + by rw Hrest.
    - apply list_elem_of_fmap in Hc as (g & -> & Hg). rw Hreg //. }
  exists (set_coins serv m1). split_and!.
  - rw /BindCoins (BindCoins_range_app _ _ _ _ Hrun). cbn [BindCoins_range]. by rw Hg0.
  - done.
  - intros ct g Hct. cbn. rw Hrest //.
    intros (g' & -> & Hg')%list_elem_of_fmap. by rw Hfresh in Hct.
Qed.

End BindCoins.

Lemma BindCoins_conflict_or_registered_witness :
  (is_Some (server.coins S6.withBtc !! "bitcoin") ∧
   ∃ serv' c', c' ∈ [S6.sky; S6.btc] ∧
     server.BindCoins S6.withBtc [S6.sky; S6.btc] = (serv', Some (server.conflict c'))) ∧
  (NoDup (coin.Type_ <$> [S6.btc; S6.sky]) ∧
   ∃ serv', server.BindCoins S1.serv [S6.btc; S6.sky] = (serv', None) ∧
     ∀ c, c ∈ [S6.btc; S6.sky] → server.coins serv' !! coin.Type_ c = Some c).
Proof.
  assert (NoDup (coin.Type_ <$> [S6.btc; S6.sky])) as Hnodup.
  { apply (bool_decide_unpack _). vm_compute. exact I. }
  assert (is_Some (server.coins S6.withBtc !! "bitcoin")) as Hreg.
  { exists S6.btc. vm_compute. reflexivity. }
  split; (split; [assumption|]).
  - apply (proj1 (BindCoins_conflict_or_registered S6.withBtc [S6.sky; S6.btc])).
    exists S6.btc. split; [|exact Hreg]. apply list_elem_of_In. simpl. tauto.
  - apply (proj2 (BindCoins_conflict_or_registered S1.serv [S6.btc; S6.sky]));
      [|exact Hnodup].
    intros c Hc. apply list_elem_of_In in Hc. simpl in Hc.
    destruct Hc as [<-|[<-|[]]]; vm_compute; reflexivity.
Defined.

Lemma BindCoins_not_atomic_witness :
  is_Some (server.coins S6.withBtc !! "bitcoin") ∧
  ∃ serv',
    server.BindCoins S6.withBtc ([S6.sky] ++ S6.btc :: [S6.mzc])
      = (serv', Some (server.conflict S6.btc)) ∧
    (∀ g, g ∈ [S6.sky] → server.coins serv' !! coin.Type_ g = Some g) ∧
    (∀ ct g, server.coins S6.withBtc !! ct = Some g → server.coins serv' !! ct = Some g).
Proof.
  assert (is_Some (server.coins S6.withBtc !! "bitcoin")) as Hreg.
  { exists S6.btc. vm_compute. reflexivity. }
  split; [exact Hreg|].
  apply (BindCoins_not_atomic S6.withBtc [S6.sky] S6.btc [S6.mzc]).
  - intros g Hg. apply list_elem_of_In in Hg. simpl in Hg.
    destruct Hg as [<-|[]]. vm_compute. reflexivity.
  - apply (bool_decide_unpack _). vm_compute. exact I.
  - left. exact Hreg.
Defined.

(** ** Wiring of the order handlers *)

Section Wiring.
Import server.
Context {BM BU SM SU : Type}.
Context {btc_um : UtxoManager BM BU} {sky_um : UtxoManager SM SU}.
Variable bitcoin_NewUtxoManager : Z → list string → BM.
Variable skycoin_NewUtxoManager : string → Z → list string → SM.
Implicit Types (self : ExchangeServer BM SM).

Lemma New_orderHandlers env cfg0 self :
  New bitcoin_NewUtxoManager skycoin_NewUtxoManager env cfg0 = Done self →
  orderHandlers self = {[ "bitcoin/skycoin" := order.make_chan 100 ]}.
Proof.
  rw /New. intros H.
  repeat match type of H with
         | match ?x with _ => _ end = _ => destruct x; try done
         end.
  all: by injection H as <-.
Qed.

(** The loop of [Run] leaves every handler registered under its pair, and
    what the order manager had registered for other pairs as it was. *)
Lemma Run_registerOrderChans_chans self :
  order.chans (orderManager (Run_registerOrderChans self))
  = orderHandlers self ∪ order.chans (orderManager self).
Proof.
  rw /Run_registerOrderChans /=.
  apply (map_fold_weak_ind
           (λ om h, order.chans om = h ∪ order.chans (orderManager self))).
  - by rw left_id_L.
  - intros cp c h om _ IH. by rw /= IH insert_union_l.
Qed.

(** C7: the server [New] returns has a handler for the pair
    "bitcoin/skycoin"; every handler it has is a channel of capacity 100,
    and is the channel [Run] registers with the order manager for the
    pair. *)
Theorem New_orderHandlers_capacity env cfg0 self :
  New bitcoin_NewUtxoManager skycoin_NewUtxoManager env cfg0 = Done self →
  is_Some (orderHandlers self !! "bitcoin/skycoin") ∧
  ∀ cp ch,
    orderHandlers self !! cp = Some ch →
    order.chan_cap ch = 100 ∧
    order.chans (orderManager (Run_registerOrderChans self)) !! cp = Some ch.
Proof.
  intros Hnew. pose proof (New_orderHandlers _ _ _ Hnew) as Hh. split.
  - rw Hh lookup_singleton_eq. by eexists.
  - intros cp ch Hcp. split.
    + rw Hh in Hcp. by apply lookup_singleton_Some in Hcp as [_ <-].
    + rw Run_registerOrderChans_chans. by apply lookup_union_Some_l.
Qed.

End Wiring.

Lemma New_orderHandlers_capacity_witness :
  S1.new = Done S1.serv ∧
  is_Some (server.orderHandlers S1.serv !! "bitcoin/skycoin") ∧
  ∀ cp ch,
    server.orderHandlers S1.serv !! cp = Some ch →
    order.chan_cap ch = 100 ∧
    order.chans (server.orderManager (server.Run_registerOrderChans S1.serv)) !! cp
      = Some ch.
Proof.
  split; [vm_compute; reflexivity|].
  apply (New_orderHandlers_capacity pool.NewUtxoManager (λ _, pool.NewUtxoManager)
           S1.env S1.config S1.serv).
  vm_compute. reflexivity.
Defined.

(** ** The UTXO reservation dispatch *)

Section Utxos.
Import server.
Context {BM BU SM SU : Type}.
Context {btc_um : UtxoManager BM BU} {sky_um : UtxoManager SM SU}.
Implicit Types (self : ExchangeServer BM SM) (utxos : utxosValue BU SU).

(** C8: for a chain that is neither "bitcoin" nor "skycoin", [PutUtxos]
    returns normally and leaves the server, both pools included, as it
    was. *)
Theorem PutUtxos_unknown_chain self cp utxos :
  cp ≠ "bitcoin" → cp ≠ "skycoin" →
  PutUtxos self cp utxos = Done self.
Proof. intros Hb Hs. rw /PutUtxos. by repeat case_decide. Qed.

(** C5, as the code has it: for "bitcoin" and for "skycoin" the server
    hands the call to the chain's manager and returns its UTXOs and its
    error, so the call fails exactly when the reservation does; for every
    other chain it fails with "unknow coin type" and changes nothing. *)
Theorem ChooseUtxos_dispatch self cp amount tm :
  (cp = "bitcoin" →
   ChooseUtxos self cp amount tm =
     let r := um_ChooseUtxos (btcum self) amount tm in
     (set_btcum self (fst r), (BtcUtxos (fst (snd r)), snd (snd r)))) ∧
  (cp = "skycoin" →
   ChooseUtxos self cp amount tm =
     let r := um_ChooseUtxos (skyum self) amount tm in
     (set_skyum self (fst r), (SkyUtxos (fst (snd r)), snd (snd r)))) ∧
  (cp ≠ "bitcoin" → cp ≠ "skycoin" →
   ChooseUtxos self cp amount tm = (self, (NilValue, Some "unknow coin type"))).
Proof.
  rw /ChooseUtxos /bitcoin.Type_ /skycoin.Type_. split_and!.
  - intros ->. case_decide; [|done]. by destruct (um_ChooseUtxos _ _ _) as [? [? ?]].
  - intros ->. case_decide; [done|]. case_decide; [|done].
    by destruct (um_ChooseUtxos _ _ _) as [? [? ?]].
  - intros Hb Hs. by repeat case_decide.
Qed.

(** C10: for a negative fee in the range of [int], [GetBtcFee] is the fee
    plus 2^64, which is the fee modulo 2^64 and lies from 2^63 up to
    2^64 - 1, so it is not zero. *)
Theorem GetBtcFee_negative self :
  int_range (BtcFee (cfg self)) → (BtcFee (cfg self) < 0)%Z →
  GetBtcFee self = (BtcFee (cfg self) + 2 ^ 64)%Z ∧
  GetBtcFee self = (BtcFee (cfg self) mod 2 ^ 64)%Z ∧
  (2 ^ 63 ≤ GetBtcFee self < 2 ^ 64)%Z.
Proof.
  rw /int_range /GetBtcFee /uint64. intros Hr Hneg.
  rw Z.land_ones; [done|].
  assert (BtcFee (cfg self) mod 2 ^ 64 = BtcFee (cfg self) + 2 ^ 64)%Z as ->.
  { symmetry. apply (Z.mod_unique _ _ (-1)); lia. }
  lia.
Qed.

End Utxos.

Lemma PutUtxos_unknown_chain_witness :
  "litecoin" ≠ "bitcoin" ∧ "litecoin" ≠ "skycoin" ∧
  server.PutUtxos S5.serv "litecoin" (server.BtcUtxos [S5.utxo "tx0:0"]) = Done S5.serv.
Proof.
  split; [discriminate|]. split; [discriminate|].
  apply (PutUtxos_unknown_chain S5.serv "litecoin"); discriminate.
Defined.

Lemma ChooseUtxos_dispatch_witness :
  server.ChooseUtxos S5.serv "bitcoin" 10%N 0%Z =
    (let r := um_ChooseUtxos (server.btcum S5.serv) 10%N 0%Z in
     (server.set_btcum S5.serv (fst r), (server.BtcUtxos (fst (snd r)), snd (snd r)))) ∧
  server.ChooseUtxos S5.serv "skycoin" 10%N 0%Z =
    (let r := um_ChooseUtxos (server.skyum S5.serv) 10%N 0%Z in
     (server.set_skyum S5.serv (fst r), (server.SkyUtxos (fst (snd r)), snd (snd r)))) ∧
  server.ChooseUtxos S5.serv "litecoin" 10%N 0%Z
    = (S5.serv, (server.NilValue, Some "unknow coin type")).
Proof.
  split; [apply (proj1 (ChooseUtxos_dispatch S5.serv "bitcoin" 10%N 0%Z)); reflexivity|].
  split; [apply (proj1 (proj2 (ChooseUtxos_dispatch S5.serv "skycoin" 10%N 0%Z)));
          reflexivity|].
  apply (proj2 (proj2 (ChooseUtxos_dispatch S5.serv "litecoin" 10%N 0%Z))); discriminate.
Defined.

Lemma GetBtcFee_negative_witness :
  server.BtcFee (server.cfg S6.negativeFee) = (-1)%Z ∧
  server.GetBtcFee S6.negativeFee = (-1 + 2 ^ 64)%Z ∧
  server.GetBtcFee S6.negativeFee = (-1 mod 2 ^ 64)%Z ∧
  (2 ^ 63 ≤ server.GetBtcFee S6.negativeFee < 2 ^ 64)%Z.
Proof.
  split; [reflexivity|].
  apply (GetBtcFee_negative S6.negativeFee);
    [vm_compute; split; [discriminate|reflexivity]|].
  vm_compute. reflexivity.
Defined.

(** C5, as the spec has it, fails: both pools can serve 10 units, and the
    call for the chain "litecoin" fails all the same. *)
Lemma ChooseUtxos_unknown_chain_fails :
  ¬ server.only_reservation_failures S5.serv "litecoin" 10%N 0%Z.
Proof.
  intros H. destruct (H "unknow coin type") as [Hb|Hs]; by vm_compute in *.
Qed.

(** * Further properties of the server *)

(** ** [strings.Contains] and [strings.Split] *)

Section GoStringsSpec.
Import GoStrings.

Lemma HasPrefix_spec s p : HasPrefix s p = true ↔ ∃ post, s = p +:+ post.
Proof.
  revert s. induction p as [|c p IH]; intros s.
  - rw HasPrefix_empty. split; [by exists s|done].
  - destruct s as [|d s]; cbn [HasPrefix].
    + split; [done|]. by intros [post [=]].
    + destruct (Ascii.eqb_spec d c) as [->|Hne].
      * rw IH. split; intros [post Hp]; exists post; [by rw Hp|by injection Hp].
      * split; [done|]. intros [post [= Hd _]]. by destruct Hne.
Qed.

Lemma Contains_spec s substr :
  Contains s substr = true ↔ ∃ pre post, s = pre +:+ substr +:+ post.
Proof.
  induction s as [|c s IH]; cbn [Contains].
  - rw orb_false_r HasPrefix_spec. split.
    + intros [post Hp]. by exists "", post.
    + intros ([|d pre] & post & Hp); [by exists post|done].
  - rw orb_true_iff HasPrefix_spec IH. split.
    + intros [[post Hp]|(pre & post & Hp)].
      * by exists "", post.
      * exists (String c pre), post. by rw Hp.
    + intros ([|d pre] & post & Hp).
      * left. by exists post.
      * right. injection Hp as -> Hp. by exists pre, post.
Qed.

Lemma Split_length s sep : length (Split s sep) = S (Count s sep).
Proof.
  induction s as [|c s IH]; cbn [Split Count]; [done|].
  destruct (Ascii.eqb c sep); cbn [length]; [by rw IH|].
  destruct (Split s sep); cbn [length] in *; lia.
Qed.

Lemma Split_no_sep s sep : Count s sep = 0 → Split s sep = [s].
Proof.
  induction s as [|c s IH]; cbn [Split Count]; [done|].
  destruct (Ascii.eqb c sep); [done|]. intros H. by rw IH.
Qed.

Lemma append_cons c a b : String c a +:+ b = String c (a +:+ b).
Proof. reflexivity. Qed.

Lemma append_nil_l s : "" +:+ s = s.
Proof. reflexivity. Qed.

Lemma Split_app a b sep :
  Count a sep = 0 → Split (a +:+ String sep b) sep = a :: Split b sep.
Proof.
  induction a as [|c a IH]; rw ?append_nil_l ?append_cons; cbn [Split Count].
  - by rw Ascii.eqb_refl.
  - destruct (Ascii.eqb c sep); [done|]. intros H. by rw IH.
Qed.

(** What the first piece of a split is, and what is split after it. *)
Lemma Split_cons_inv s sep piece pieces :
  Split s sep = piece :: pieces →
  Count piece sep = 0 ∧
  ((pieces = [] ∧ s = piece) ∨
   ∃ rest, s = piece +:+ String sep rest ∧ Split rest sep = pieces).
Proof.
  revert piece pieces. induction s as [|c s IH]; intros piece pieces; cbn [Split].
  - intros [= <- <-]. split; [done|by left].
  - destruct (Ascii.eqb_spec c sep) as [->|Hne].
    + intros [= <- <-]. split; [done|]. right. by exists s.
    + destruct (Split s sep) as [|p ps] eqn:Hs; [by destruct (Split_nonempty s sep)|].
      intros [= <- <-]. destruct (IH _ _ eq_refl) as [Hp Hrest]. split.
      * cbn [Count]. by destruct (Ascii.eqb_spec c sep).
      * destruct Hrest as [[-> ->]|(rest & -> & Hr)]; [by left|].
        right. by exists rest.
Qed.

End GoStringsSpec.

(** ** The admin check, in full *)

Section AdminSpec.
Import server.
Context {BM SM : Type}.
Implicit Types (self : ExchangeServer BM SM).

(** X1: [IsAdmin] accepts exactly the pubkeys that occur somewhere in the
    configured [Admins] text, whatever lies around them. *)
Theorem IsAdmin_iff_substring self pubkey :
  IsAdmin self pubkey = true ↔
  ∃ pre post, Admins (cfg self) = pre +:+ pubkey +:+ post.
Proof. apply Contains_spec. Qed.

(** X2: Every entry of the comma-separated [Admins] passes the check: no
    configured admin is turned away. *)
Theorem IsAdmin_accepts_listed self pubkey :
  pubkey ∈ GoStrings.Split (Admins (cfg self)) "," → IsAdmin self pubkey = true.
Proof. apply Split_Contains. Qed.

(** X3: The empty pubkey passes the check under every configuration, and when
    no admin is configured it is the only one that does. *)
Theorem IsAdmin_empty self pubkey :
  IsAdmin self "" = true ∧
  (Admins (cfg self) = "" → (IsAdmin self pubkey = true ↔ pubkey = "")).
Proof.
  split; [apply Contains_empty|].
  rw /IsAdmin. intros ->. by destruct pubkey.
Qed.

End AdminSpec.

Lemma IsAdmin_iff_substring_witness : server.IsAdmin S1.serv "dd,03" = true.
Proof.
  apply (proj2 (IsAdmin_iff_substring S1.serv "dd,03")).
  exists "02aabbcc", "eeff0011". reflexivity.
Defined.

Lemma IsAdmin_accepts_listed_witness :
  "03eeff0011" ∈ GoStrings.Split (server.Admins (server.cfg S1.serv)) "," ∧
  server.IsAdmin S1.serv "03eeff0011" = true.
Proof.
  assert ("03eeff0011" ∈ GoStrings.Split (server.Admins (server.cfg S1.serv)) ",") as H.
  { apply list_elem_of_In. vm_compute. tauto. }
  split; [exact H|]. apply (IsAdmin_accepts_listed S1.serv "03eeff0011"). exact H.
Defined.

Lemma IsAdmin_empty_witness :
  server.Admins (server.cfg S6.negativeFee) = "" ∧
  server.IsAdmin S6.negativeFee "" = true ∧
  (server.IsAdmin S6.negativeFee "02aabbccdd" = true ↔ "02aabbccdd" = "").
Proof.
  split; [reflexivity|].
  split; [apply (proj1 (IsAdmin_empty S6.negativeFee ""))|].
  apply (proj2 (IsAdmin_empty S6.negativeFee "02aabbccdd")). reflexivity.
Defined.

(** ** Settlement, in full *)

Section SettlementSpec.
Import server.
Context {BM BU SM SU : Type}.
Context {btc_um : UtxoManager BM BU} {sky_um : UtxoManager SM SU}.
Implicit Types (self : ExchangeServer BM SM) (od : order.Order) (cp : string).

(** X4: A pair is accepted, with main asset [mainCt] and sub asset [subCt],
    exactly when it is [mainCt], one "/" and [subCt], neither of them
    holding a "/". *)
Theorem Split_pair cp mainCt subCt :
  GoStrings.Split cp "/" = [mainCt; subCt] ↔
  cp = mainCt +:+ String "/" subCt ∧
  GoStrings.Count mainCt "/" = 0 ∧ GoStrings.Count subCt "/" = 0.
Proof.
  split.
  - intros H. apply Split_cons_inv in H as [Hm [[? _]|(rest & -> & Hrest)]]; [done|].
    apply Split_cons_inv in Hrest as [Hs [[_ ->]|(rest' & _ & Hnil)]]; [done|].
    by destruct (Split_nonempty rest' "/").
  - intros (-> & Hm & Hs). by rw Split_app // Split_no_sep.
Qed.

Lemma settled_Accounts self id a :
  account.Accounts (Manager (settled self id a))
  = <[id := a]> (account.Accounts (Manager self)).
Proof.
  rw /settled /SaveAccount /account.Save /=.
  by destruct (account.DiskError (Manager self)).
Qed.

Lemma settled_DiskError self id a :
  account.DiskError (Manager (settled self id a)) = account.DiskError (Manager self).
Proof.
  rw /settled /SaveAccount /account.Save /=.
  by destruct (account.DiskError (Manager self)) eqn:Hd; rw /= ?Hd.
Qed.

Lemma settled_Snapshot self id a :
  account.DiskError (Manager self) = None →
  account.Snapshot (Manager (settled self id a))
  = account.Accounts (Manager (settled self id a)).
Proof. intros Hd. by rw /settled /SaveAccount /account.Save /= Hd. Qed.

Lemma settled_rest self id a :
  btcum (settled self id a) = btcum self ∧ skyum (settled self id a) = skyum self ∧
  orderManager (settled self id a) = orderManager self ∧
  cfg (settled self id a) = cfg self ∧
  orderHandlers (settled self id a) = orderHandlers self ∧
  coins (settled self id a) = coins self.
Proof.
  rw /settled /SaveAccount /account.Save /=.
  by destruct (account.DiskError (Manager self)).
Qed.

Lemma settled_comm self id1 a1 id2 a2 :
  id1 ≠ id2 →
  settled (settled self id1 a1) id2 a2 = settled (settled self id2 a2) id1 a1.
Proof.
  intros Hne. rw /settled /SaveAccount /account.Save /=.
  destruct (account.DiskError (Manager self)) eqn:Hd; rw /= ?Hd /=;
    by rw /set_Manager /account.update /= insert_insert_ne.
Qed.

Lemma settledOr_comm self id1 a1 id2 a2 :
  id1 ≠ id2 →
  settledOr (settledOr self id1 a1) id2 a2 = settledOr (settledOr self id2 a2) id1 a1.
Proof. intros Hne. destruct a1, a2; cbn [settledOr]; [by apply settled_comm|done..]. Qed.

Lemma settledOr_other self id a id' :
  id' ≠ id →
  account.Accounts (Manager (settledOr self id a)) !! id'
  = account.Accounts (Manager self) !! id'.
Proof.
  intros Hne. destruct a; cbn [settledOr]; [|done].
  by rw settled_Accounts lookup_insert_ne.
Qed.

Lemma settleOrder_bid_known self cp mainCt subCt od acnt :
  GoStrings.Split cp "/" = [mainCt; subCt] →
  account.Accounts (Manager self) !! order.AccountID od = Some acnt →
  order.Type_ od = order.Bid →
  settleOrder self cp od =
    Done (settled self (order.AccountID od)
            (account.setBalance acnt mainCt
               (account.GetBalance acnt mainCt + order.Amount od))).
Proof.
  intros Hpair Hacnt Hbid.
  by rw /settleOrder (GetAccount_known _ _ _ Hacnt) Hpair Hbid.
Qed.

Lemma settleOrder_ask_known self cp mainCt subCt od acnt :
  GoStrings.Split cp "/" = [mainCt; subCt] →
  account.Accounts (Manager self) !! order.AccountID od = Some acnt →
  order.Type_ od = order.Ask →
  let acnt1 := account.setBalance acnt subCt
                 (account.GetBalance acnt subCt
                  + mul64 (order.Price od) (order.Amount od)) in
  (order.Amount od ≤ account.GetBalance acnt1 mainCt)%N →
  settleOrder self cp od =
    Done (settled self (order.AccountID od)
            (account.setBalance acnt1 mainCt
               (account.GetBalance acnt1 mainCt - order.Amount od))).
Proof.
  intros Hpair Hacnt Hask acnt1 Hpay.
  rw /settleOrder (GetAccount_known _ _ _ Hacnt) Hpair Hask /=.
  by rw DecreaseBalance_ok.
Qed.

(** What a settlement that returns has done: it has replaced the order's
    account in the store and called [SaveAccount], or, for an order that is
    neither a bid nor an ask, nothing; and it does the same on every server
    that holds the same account under that id. *)
Lemma settleOrder_inv self cp od self' :
  settleOrder self cp od = Done self' →
  ∃ acnt acnt',
    account.Accounts (Manager self) !! order.AccountID od = Some acnt ∧
    self' = settledOr self (order.AccountID od) acnt' ∧
    (acnt' = None → ∃ tag, order.Type_ od = order.Other tag) ∧
    ∀ self2,
      account.Accounts (Manager self2) !! order.AccountID od = Some acnt →
      settleOrder self2 cp od = Done (settledOr self2 (order.AccountID od) acnt').
Proof.
  rw /settleOrder /account.GetAccount.
  destruct (account.Accounts (Manager self) !! order.AccountID od) as [acnt|] eqn:Hacnt;
    [|done].
  destruct (negb _) eqn:Hlen; [done|].
  destruct (order.Type_ od) as [| |tag] eqn:Ht; cbn [account.IncreaseBalance].
  - intros [= <-]. exists acnt. eexists (Some _). split_and!; [done|reflexivity|done|].
    intros self2 H2. by rw H2.
  - rw /account.DecreaseBalance.
    destruct (N.ltb _ _) eqn:Hlt; [done|].
    intros [= <-]. exists acnt. eexists (Some _). split_and!; [done|reflexivity|done|].
    intros self2 H2. by rw H2 Hlt.
  - intros [= <-]. exists acnt, None. split_and!; [done|done|by eexists|].
    intros self2 H2. by rw H2.
Qed.

(** X5: For a known account, a bid is settled exactly when the pair holds one
    "/"; otherwise settlement panics on the pair. *)
Theorem settleOrder_bid_pair self cp od acnt :
  account.Accounts (Manager self) !! order.AccountID od = Some acnt →
  order.Type_ od = order.Bid →
  (GoStrings.Count cp "/" = 1 → ∃ self', settleOrder self cp od = Done self') ∧
  (GoStrings.Count cp "/" ≠ 1 → settleOrder self cp od = Panic "error coin pair").
Proof.
  intros Hacnt Hbid. pose proof (Split_length cp "/") as Hlen. split.
  - intros H1. rw H1 in Hlen.
    destruct (GoStrings.Split cp "/") as [|mainCt [|subCt [|]]] eqn:Hpair; try done.
    eexists. by eapply settleOrder_bid_known.
  - intros H1. rw /settleOrder (GetAccount_known _ _ _ Hacnt).
    destruct (Nat.eqb_spec (length (GoStrings.Split cp "/")) 2) as [H2|]; [|done].
    rw H2 in Hlen. lia.
Qed.

(** X6: A settlement that returns has touched one account only: every other
    account, the set of account ids, the pools, the order manager, the
    configuration, the handlers and the coins are as before. *)
Theorem settleOrder_frame self cp od self' :
  settleOrder self cp od = Done self' →
  (∀ id, id ≠ order.AccountID od →
         account.Accounts (Manager self') !! id = account.Accounts (Manager self) !! id) ∧
  dom (account.Accounts (Manager self')) = dom (account.Accounts (Manager self)) ∧
  btcum self' = btcum self ∧ skyum self' = skyum self ∧
  orderManager self' = orderManager self ∧ cfg self' = cfg self ∧
  orderHandlers self' = orderHandlers self ∧ coins self' = coins self.
Proof.
  intros Hdone. apply settleOrder_inv in Hdone as (acnt & acnt' & Hacnt & -> & _).
  split; [intros id Hid; by apply settledOr_other|].
  destruct acnt' as [a|]; cbn [settledOr]; [|done].
  split; [by rw settled_Accounts dom_insert_lookup_L|]. apply settled_rest.
Qed.

(** X7: When the disk takes the writes and the goroutine of a pair has
    settled a batch of orders, the snapshot on disk is the store in memory,
    provided the batch holds a bid or an ask or the two agreed before; an
    order that is neither is settled without a save. *)
Theorem handleOrders_snapshot self cp ods self' :
  handleOrders self cp ods = Done self' →
  account.DiskError (Manager self) = None →
  Exists (λ od, order.Type_ od = order.Bid ∨ order.Type_ od = order.Ask) ods ∨
  account.Snapshot (Manager self) = account.Accounts (Manager self) →
  account.Snapshot (Manager self') = account.Accounts (Manager self').
Proof.
  revert self. induction ods as [|od ods IH]; intros self; cbn [handleOrders].
  - intros [= <-] _ [Hex|Heq]; [by apply Exists_nil in Hex|done].
  - destruct (settleOrder self cp od) as [self1|] eqn:H1; [|done].
    apply settleOrder_inv in H1 as (acnt & [a|] & _ & -> & Hother & _);
      cbn [settledOr]; intros Hrest Hdisk Hsome.
    + apply (IH _ Hrest); [by rw settled_DiskError|]. right. by apply settled_Snapshot.
    + apply (IH _ Hrest Hdisk). destruct Hsome as [Hex|Heq]; [|by right].
      apply Exists_cons in Hex as [Hhd|Htl]; [|by left].
      destruct (Hother eq_refl) as [tag Htag]. rw Htag in Hhd. by destruct Hhd.
Qed.

(** X8: Orders of two different accounts can be settled in either order: when
    one order then the other are settled, so are the other then the one,
    with the same server at the end. *)
Theorem settleOrder_comm self cp od1 od2 self' :
  order.AccountID od1 ≠ order.AccountID od2 →
  handleOrders self cp [od1; od2] = Done self' →
  handleOrders self cp [od2; od1] = Done self'.
Proof.
  intros Hne. cbn [handleOrders].
  destruct (settleOrder self cp od1) as [self1|] eqn:H1; [|done].
  destruct (settleOrder self1 cp od2) as [self2|] eqn:H2; [|done].
  intros [= <-].
  apply settleOrder_inv in H1 as (a1 & a1' & Ha1 & -> & _ & Hrun1).
  apply settleOrder_inv in H2 as (a2 & a2' & Ha2 & -> & _ & Hrun2).
  rw settledOr_other // in Ha2.
  rw (Hrun2 self Ha2) Hrun1.
  - by rw settledOr_other.
  - by rw settledOr_comm.
Qed.

(** X9: A matched ask and bid for the same amount on the pair [mainCt/subCt],
    of two different accounts: the seller's main balance goes down by the
    amount and the buyer's up by it, so their sum stays; the seller's sub
    balance goes up by the 64-bit product of price and amount and the
    buyer's sub balance stays. *)
Theorem settleOrder_matched self cp mainCt subCt ask bid seller buyer :
  GoStrings.Split cp "/" = [mainCt; subCt] → mainCt ≠ subCt →
  order.Type_ ask = order.Ask → order.Type_ bid = order.Bid →
  order.AccountID ask ≠ order.AccountID bid →
  order.Amount bid = order.Amount ask →
  account.Accounts (Manager self) !! order.AccountID ask = Some seller →
  account.Accounts (Manager self) !! order.AccountID bid = Some buyer →
  (order.Amount ask ≤ account.GetBalance seller mainCt)%N →
  ∃ self',
    handleOrders self cp [ask; bid] = Done self' ∧
    balanceOf self' (order.AccountID ask) mainCt
      = Some (account.GetBalance seller mainCt - order.Amount ask)%N ∧
    balanceOf self' (order.AccountID bid) mainCt
      = Some (account.GetBalance buyer mainCt + order.Amount ask)%N ∧
    balanceOf self' (order.AccountID ask) subCt
      = Some (account.GetBalance seller subCt
              + mul64 (order.Price ask) (order.Amount ask))%N ∧
    balanceOf self' (order.AccountID bid) subCt
      = Some (account.GetBalance buyer subCt).
Proof.
  intros Hpair Hct Hask Hbid Hne Hamt Hseller Hbuyer Hpay.
  eexists. split.
  - cbn [handleOrders].
    rw (settleOrder_ask_known _ _ _ _ _ _ Hpair Hseller Hask).
    { by rw /= GetBalance_setBalance decide_False. }
    rw (settleOrder_bid_known _ _ mainCt subCt bid buyer) //.
    by rw settled_Accounts lookup_insert_ne.
  - rw /balanceOf !settled_Accounts Hamt.
    rw lookup_insert_ne; [done|]. rw !lookup_insert_eq /=.
    rw !GetBalance_setBalance.
    rw (decide_True (P := mainCt = mainCt)) // (decide_False (P := mainCt = subCt)) //.
    rw (decide_False (P := subCt = mainCt)) // (decide_True (P := subCt = subCt)) //.
    by repeat case_decide.
Qed.

End SettlementSpec.

Lemma Split_pair_witness :
  GoStrings.Split "bitcoin/skycoin" "/" = ["bitcoin"; "skycoin"].
Proof.
  apply (proj2 (Split_pair "bitcoin/skycoin" "bitcoin" "skycoin")).
  split; [reflexivity|]. split; reflexivity.
Defined.

Lemma settleOrder_bid_pair_witness :
  account.Accounts (server.Manager S1.serv) !! "B" = Some S1.B ∧
  GoStrings.Count "bitcoin/skycoin" "/" = 1 ∧
  (∃ self', server.settleOrder S1.serv "bitcoin/skycoin" S1.bid = Done self') ∧
  GoStrings.Count "bitcoin-skycoin" "/" ≠ 1 ∧
  server.settleOrder S1.serv "bitcoin-skycoin" S1.bid = Panic "error coin pair".
Proof.
  split; [vm_compute; reflexivity|]. split; [reflexivity|].
  split; [apply (proj1 (settleOrder_bid_pair S1.serv "bitcoin/skycoin" S1.bid S1.B
                          ltac:(vm_compute; reflexivity) eq_refl)); reflexivity|].
  split; [vm_compute; discriminate|].
  apply (proj2 (settleOrder_bid_pair S1.serv "bitcoin-skycoin" S1.bid S1.B
                  ltac:(vm_compute; reflexivity) eq_refl)).
  vm_compute. discriminate.
Defined.

Lemma settleOrder_frame_witness :
  server.settleOrder S1.serv "bitcoin/skycoin" S1.bid = Done S7.afterBid ∧
  account.Accounts (server.Manager S7.afterBid) !! "A"
    = account.Accounts (server.Manager S1.serv) !! "A" ∧
  dom (account.Accounts (server.Manager S7.afterBid))
    = dom (account.Accounts (server.Manager S1.serv)).
Proof.
  assert (server.settleOrder S1.serv "bitcoin/skycoin" S1.bid = Done S7.afterBid) as H.
  { vm_compute. reflexivity. }
  split; [exact H|].
  destruct (settleOrder_frame S1.serv "bitcoin/skycoin" S1.bid S7.afterBid H)
    as (Hother & Hdom & _).
  split; [apply Hother; discriminate|exact Hdom].
Defined.

Lemma handleOrders_snapshot_witness :
  server.handleOrders S1.serv "bitcoin/skycoin" [S10.other; S1.ask; S10.other]
    = Done S10.afterOthers ∧
  account.DiskError (server.Manager S1.serv) = None ∧
  account.Snapshot (server.Manager S10.afterOthers)
    = account.Accounts (server.Manager S10.afterOthers).
Proof.
  assert (server.handleOrders S1.serv "bitcoin/skycoin" [S10.other; S1.ask; S10.other]
          = Done S10.afterOthers) as H.
  { vm_compute. reflexivity. }
  split; [exact H|]. split; [reflexivity|].
  apply (handleOrders_snapshot S1.serv "bitcoin/skycoin"
           [S10.other; S1.ask; S10.other] S10.afterOthers H eq_refl).
  left. apply Exists_cons_tl, Exists_cons_hd. right. reflexivity.
Defined.

Lemma settleOrder_comm_witness :
  server.handleOrders S1.serv "bitcoin/skycoin" [S1.ask; S1.bid] = Done S7.afterBoth ∧
  server.handleOrders S1.serv "bitcoin/skycoin" [S1.bid; S1.ask] = Done S7.afterBoth.
Proof.
  assert (server.handleOrders S1.serv "bitcoin/skycoin" [S1.ask; S1.bid]
          = Done S7.afterBoth) as H.
  { vm_compute. reflexivity. }
  split; [exact H|].
  apply (settleOrder_comm S1.serv "bitcoin/skycoin" S1.ask S1.bid S7.afterBoth);
    [discriminate|exact H].
Defined.

Lemma settleOrder_matched_witness :
  ∃ self',
    server.handleOrders S1.serv "bitcoin/skycoin" [S1.ask; S1.bid] = Done self' ∧
    server.balanceOf self' "A" "bitcoin" = Some (account.GetBalance S1.A "bitcoin" - 100)%N ∧
    server.balanceOf self' "B" "bitcoin" = Some (account.GetBalance S1.B "bitcoin" + 100)%N ∧
    server.balanceOf self' "A" "skycoin"
      = Some (account.GetBalance S1.A "skycoin" + server.mul64 5 100)%N ∧
    server.balanceOf self' "B" "skycoin" = Some (account.GetBalance S1.B "skycoin").
Proof.
  apply (settleOrder_matched S1.serv "bitcoin/skycoin" "bitcoin" "skycoin"
           S1.ask S1.bid S1.A S1.B);
    try reflexivity; try discriminate; vm_compute; try reflexivity; discriminate.
Defined.

(** ** Registration of coins, in full *)

Section CoinsSpec.
Import server.
Context {BM SM : Type}.
Implicit Types (serv : ExchangeServer BM SM) (m : gmap string coin.Gateway)
  (c g : coin.Gateway) (cs : list coin.Gateway).

Lemma set_coins_id serv : set_coins serv (coins serv) = serv.
Proof. by destruct serv. Qed.


Lemma BindCoins_range_ok_inv m cs m' :
  BindCoins_range m cs = (m', None) →
  (∀ c, c ∈ cs → m !! coin.Type_ c = None) ∧ NoDup (coin.Type_ <$> cs).
Proof.
  revert m. induction cs as [|c0 cs IH]; intros m; cbn [BindCoins_range].
  - intros _. split; [by intros c ?%elem_of_nil|constructor].
  - destruct (m !! coin.Type_ c0) eqn:H0; [done|].
    intros [Hfresh Hnodup]%IH.
    assert (∀ c, c ∈ cs → coin.Type_ c ≠ coin.Type_ c0) as Hne.
    { intros c Hc Heq. specialize (Hfresh c Hc). by rw Heq lookup_insert_eq in Hfresh. }
    split.
    + intros c [->|Hc]%elem_of_cons; [done|].
      specialize (Hfresh c Hc). rw lookup_insert_ne in Hfresh; [|done].
      intros Heq. by apply (Hne c Hc).
    + rw fmap_cons. apply NoDup_cons. split; [|done].
      intros (c & Heq & Hc)%list_elem_of_fmap. by apply (Hne c Hc).
Qed.


(** X11: [BindCoins] returns no error exactly when no argument's type is
    registered and no two arguments have the same type. *)
Theorem BindCoins_ok_iff serv cs :
  snd (BindCoins serv cs) = None ↔
  (∀ c, c ∈ cs → coins serv !! coin.Type_ c = None) ∧ NoDup (coin.Type_ <$> cs).
Proof.
  rw /BindCoins. split.
  - destruct (BindCoins_range (coins serv) cs) as [m' err] eqn:Hrun.
    cbn. intros ->. by eapply BindCoins_range_ok_inv.
  - intros [Hfresh Hnodup].
    destruct (BindCoins_range_fresh _ _ Hfresh Hnodup) as (m' & -> & _). done.
Qed.

(** X12: After a [BindCoins] without error, [GetCoin] finds every argument under
    its type, and answers for every other type what it answered before. *)
Theorem GetCoin_after_BindCoins serv cs serv' :
  BindCoins serv cs = (serv', None) →
  (∀ c, c ∈ cs → GetCoin serv' (coin.Type_ c) = (Some c, None)) ∧
  (∀ ct, ct ∉ coin.Type_ <$> cs → GetCoin serv' ct = GetCoin serv ct).
Proof.
  rw /BindCoins. destruct (BindCoins_range (coins serv) cs) as [m' err] eqn:Hrun.
  intros [= <- ->].
  destruct (BindCoins_range_ok_inv _ _ _ Hrun) as [Hfresh Hnodup].
  destruct (BindCoins_range_fresh _ _ Hfresh Hnodup) as (m'' & Hrun' & Hreg & Hrest).
  rw Hrun in Hrun'. injection Hrun' as <-. split.
  - intros c Hc. by rw /GetCoin /= Hreg.
  - intros ct Hct. by rw /GetCoin /= Hrest.
Qed.

(** X13: Coins registered without error cannot be registered again: the same
    call repeated returns the conflict of its first argument and changes
    nothing. *)
Theorem BindCoins_twice serv c cs serv' :
  BindCoins serv (c :: cs) = (serv', None) →
  BindCoins serv' (c :: cs) = (serv', Some (conflict c)).
Proof.
  intros Hbind.
  destruct (GetCoin_after_BindCoins _ _ _ Hbind) as [Hreg _].
  specialize (Hreg c ltac:(by left)). rw /GetCoin in Hreg.
  destruct (coins serv' !! coin.Type_ c) as [g|] eqn:Hg; [|done].
  by rw /BindCoins /= Hg set_coins_id.
Qed.

(** X14: [GetSupportCoins] has one entry per registered coin, and its entries
    are the symbols of the registered coins. *)
Theorem GetSupportCoins_spec serv :
  length (GetSupportCoins serv) = size (coins serv) ∧
  ∀ sym, sym ∈ GetSupportCoins serv ↔
         ∃ ct c, coins serv !! ct = Some c ∧ coin.Symbol c = sym.
Proof.
  rw /GetSupportCoins. split; [by rw length_fmap length_map_to_list|].
  intros sym. rw list_elem_of_fmap. split.
  - intros ([ct c] & -> & Hin). exists ct, c. by apply elem_of_map_to_list in Hin.
  - intros (ct & c & Hc & <-). exists (ct, c). by rw elem_of_map_to_list.
Qed.

(** X15: On a server without coins, a [BindCoins] without error leaves
    [GetSupportCoins] with the arguments' symbols, each argument once. *)
Theorem GetSupportCoins_after_BindCoins serv cs serv' :
  coins serv = ∅ →
  BindCoins serv cs = (serv', None) →
  GetSupportCoins serv' ≡ₚ coin.Symbol <$> cs.
Proof.
  rw /BindCoins. intros Hempty.
  destruct (BindCoins_range (coins serv) cs) as [m' err] eqn:Hrun.
  intros [= <- ->].
  destruct (BindCoins_range_ok_inv _ _ _ Hrun) as [Hfresh Hnodup].
  destruct (BindCoins_range_fresh _ _ Hfresh Hnodup) as (m'' & Hrun' & Hreg & Hrest).
  rw Hrun in Hrun'. injection Hrun' as <-.
  set (kcs := (λ c, (coin.Type_ c, c)) <$> cs).
  assert (kcs.*1 = coin.Type_ <$> cs) as Hkeys.
  { rw /kcs -list_fmap_compose. by apply list_fmap_ext. }
  assert (m' = list_to_map kcs) as ->.
  { apply map_eq. intros ct.
    destruct (decide (ct ∈ coin.Type_ <$> cs)) as [Hin|Hnin].
    - apply list_elem_of_fmap in Hin as (c & -> & Hc). rw Hreg //.
      symmetry. apply elem_of_list_to_map_1; [by rw Hkeys|].
      apply list_elem_of_fmap. by exists c.
    - rw Hrest // Hempty lookup_empty. symmetry.
      apply not_elem_of_list_to_map_1. by rw Hkeys. }
  rw /GetSupportCoins /= map_to_list_to_map; [by rw Hkeys|].
  by rw /kcs -list_fmap_compose.
Qed.

End CoinsSpec.


Lemma BindCoins_ok_iff_witness :
  snd (server.BindCoins S1.serv [S6.btc; S6.sky]) = None ∧
  NoDup (coin.Type_ <$> [S6.btc; S6.sky]).
Proof.
  assert (snd (server.BindCoins S1.serv [S6.btc; S6.sky]) = None) as H.
  { vm_compute. reflexivity. }
  split; [exact H|].
  apply (proj1 (BindCoins_ok_iff S1.serv [S6.btc; S6.sky]) H).
Defined.

Lemma GetCoin_after_BindCoins_witness :
  server.BindCoins S1.serv [S6.btc; S6.sky] = (S8.bound, None) ∧
  server.GetCoin S8.bound "skycoin" = (Some S6.sky, None) ∧
  server.GetCoin S8.bound "mzcoin" = server.GetCoin S1.serv "mzcoin".
Proof.
  assert (server.BindCoins S1.serv [S6.btc; S6.sky] = (S8.bound, None)) as H.
  { vm_compute. reflexivity. }
  split; [exact H|].
  destruct (GetCoin_after_BindCoins S1.serv [S6.btc; S6.sky] S8.bound H) as [Hreg Hrest].
  split.
  - apply (Hreg S6.sky). apply list_elem_of_In. simpl. tauto.
  - apply Hrest. intros Hin. apply list_elem_of_In in Hin. simpl in Hin.
    destruct Hin as [Hin|[Hin|[]]]; discriminate Hin.
Defined.

Lemma BindCoins_twice_witness :
  server.BindCoins S1.serv [S6.btc; S6.sky] = (S8.bound, None) ∧
  server.BindCoins S8.bound [S6.btc; S6.sky] = (S8.bound, Some (server.conflict S6.btc)).
Proof.
  assert (server.BindCoins S1.serv [S6.btc; S6.sky] = (S8.bound, None)) as H.
  { vm_compute. reflexivity. }
  split; [exact H|].
  apply (BindCoins_twice S1.serv S6.btc [S6.sky] S8.bound H).
Defined.

Lemma GetSupportCoins_spec_witness :
  length (server.GetSupportCoins S8.bound) = 2 ∧ "SKY" ∈ server.GetSupportCoins S8.bound.
Proof.
  destruct (GetSupportCoins_spec S8.bound) as [Hlen Hin]. split.
  - rw Hlen. vm_compute. reflexivity.
  - apply (proj2 (Hin "SKY")). exists "skycoin", S6.sky.
    split; [vm_compute; reflexivity|reflexivity].
Defined.

Lemma GetSupportCoins_after_BindCoins_witness :
  server.coins S1.serv = ∅ ∧
  server.BindCoins S1.serv [S6.btc; S6.sky] = (S8.bound, None) ∧
  server.GetSupportCoins S8.bound ≡ₚ ["BTC"; "SKY"].
Proof.
  assert (server.coins S1.serv = ∅) as H0 by (vm_compute; reflexivity).
  assert (server.BindCoins S1.serv [S6.btc; S6.sky] = (S8.bound, None)) as H.
  { vm_compute. reflexivity. }
  split; [exact H0|]. split; [exact H|].
  apply (GetSupportCoins_after_BindCoins S1.serv [S6.btc; S6.sky] S8.bound H0 H).
Defined.

(** ** The UTXO dispatch, in full *)

Section UtxosSpec.
Import server.
Context {BM BU SM SU : Type}.
Context {btc_um : UtxoManager BM BU} {sky_um : UtxoManager SM SU}.
Implicit Types (self : ExchangeServer BM SM) (utxos : utxosValue BU SU).

(** X16: [PutUtxos] returns normally exactly when the value it is handed for
    "bitcoin" is a slice of bitcoin UTXOs and the value it is handed for
    "skycoin" is a slice of skycoin UTXOs; otherwise the type assertion
    panics. *)
Theorem PutUtxos_done_iff self cp utxos :
  (∃ self', PutUtxos self cp utxos = Done self') ↔
  (cp = "bitcoin" → ∃ us, utxos = BtcUtxos us) ∧
  (cp = "skycoin" → ∃ us, utxos = SkyUtxos us).
Proof.
  rw /PutUtxos /bitcoin.Type_ /skycoin.Type_. split.
  - intros [self' Hput].
    split; intros ->; repeat case_decide; try done; destruct utxos; try done; by eexists.
  - intros [Hb Hs]. case_decide as Hcb; [|case_decide as Hcs].
    + destruct (Hb Hcb) as [us ->]. by eexists.
    + destruct (Hs Hcs) as [us ->]. by eexists.
    + by eexists.
Qed.

(** X17: For a chain that is neither "bitcoin" nor "skycoin", [WatchAddress]
    watches nothing and reports nothing: the server is as it was. *)
Theorem WatchAddress_unknown_chain self cp addr :
  cp ≠ "bitcoin" → cp ≠ "skycoin" → WatchAddress self cp addr = self.
Proof. intros Hb Hs. rw /WatchAddress. by repeat case_decide. Qed.

(** X18: [GetBtcFee] always lies from 0 up to 2^64 - 1; a fee from 0 up to
    2^63 - 1 is returned as it is; and two fees in the range of [int] that
    give the same result are the same fee. *)
Theorem GetBtcFee_range self :
  (0 ≤ GetBtcFee self < 2 ^ 64)%Z ∧
  ((0 ≤ BtcFee (cfg self) < 2 ^ 63)%Z → GetBtcFee self = BtcFee (cfg self)) ∧
  (∀ self2 : ExchangeServer BM SM,
     int_range (BtcFee (cfg self)) → int_range (BtcFee (cfg self2)) →
     GetBtcFee self = GetBtcFee self2 → BtcFee (cfg self) = BtcFee (cfg self2)).
Proof.
  rw /GetBtcFee /uint64 /int_range. split; [|split].
  - rw Z.land_ones; [done|]. apply Z.mod_pos_bound. lia.
  - intros Hr. rw Z.land_ones; [done|]. apply Z.mod_small. lia.
  - intros self2 H1 H2. rw !Z.land_ones; [done..|].
    intros Heq.
    assert (∀ z, (- 2 ^ 63 ≤ z < 2 ^ 63)%Z →
                 (z mod 2 ^ 64 = if decide (z < 0) then z + 2 ^ 64 else z)%Z) as Hmod.
    { intros z Hz. case_decide.
      - symmetry. apply (Z.mod_unique _ _ (-1)); lia.
      - apply Z.mod_small. lia. }
    rw !Hmod // in Heq. repeat case_decide; lia.
Qed.

End UtxosSpec.

Lemma PutUtxos_done_iff_witness :
  (∃ self', server.PutUtxos S5.serv "bitcoin" (server.BtcUtxos [S5.utxo "tx0:0"])
            = Done self') ∧
  ¬ ∃ self', server.PutUtxos S5.serv "bitcoin" (server.SkyUtxos [S5.utxo "tx0:0"])
             = Done self'.
Proof.
  split.
  - apply (proj2 (PutUtxos_done_iff S5.serv "bitcoin" (server.BtcUtxos [S5.utxo "tx0:0"]))).
    split; [intros _; eexists; reflexivity|discriminate].
  - intros H.
    apply (proj1 (PutUtxos_done_iff S5.serv "bitcoin" (server.SkyUtxos [S5.utxo "tx0:0"])))
      in H.
    destruct H as [Hb _]. destruct (Hb eq_refl) as [us Hus]. discriminate Hus.
Defined.

Lemma WatchAddress_unknown_chain_witness :
  "litecoin" ≠ "bitcoin" ∧ "litecoin" ≠ "skycoin" ∧
  server.WatchAddress S5.serv "litecoin" "LtcAddr" = S5.serv.
Proof.
  split; [discriminate|]. split; [discriminate|].
  apply (WatchAddress_unknown_chain S5.serv "litecoin" "LtcAddr"); discriminate.
Defined.

Lemma GetBtcFee_range_witness :
  (0 ≤ server.BtcFee (server.cfg S1.serv) < 2 ^ 63)%Z ∧
  server.GetBtcFee S1.serv = server.BtcFee (server.cfg S1.serv) ∧
  (server.GetBtcFee S1.serv = server.GetBtcFee S1.serv →
   server.BtcFee (server.cfg S1.serv) = server.BtcFee (server.cfg S1.serv)).
Proof.
  assert (0 ≤ server.BtcFee (server.cfg S1.serv) < 2 ^ 63)%Z as Hr.
  { vm_compute. split; [discriminate|reflexivity]. }
  assert (server.int_range (server.BtcFee (server.cfg S1.serv))) as Hi.
  { vm_compute. split; [discriminate|reflexivity]. }
  destruct (GetBtcFee_range S1.serv) as (_ & Hid & Hinj).
  split; [exact Hr|]. split; [exact (Hid Hr)|]. exact (Hinj S1.serv Hi Hi).
Defined.

(** ** Construction and wiring, in full *)

Section NewSpec.
Import server.
Context {BM BU SM SU : Type}.
Context {btc_um : UtxoManager BM BU} {sky_um : UtxoManager SM SU}.
Variable bitcoin_NewUtxoManager : Z → list string → BM.
Variable skycoin_NewUtxoManager : string → Z → list string → SM.
Implicit Types (self : ExchangeServer BM SM).

(** X19: [New] returns a server exactly when the account store loads or does
    not exist, the wallets are made and hold a bitcoin and a skycoin wallet,
    and the order books load or do not exist; in every other case it
    panics. *)
Theorem New_done_iff env cfg0 :
  (∃ self, New bitcoin_NewUtxoManager skycoin_NewUtxoManager env cfg0 = Done self) ↔
  (∀ err, env_accounts env ≠ LoadFailed err) ∧
  snd (env_wallets env) = None ∧
  snd (wallets_GetAddresses (fst (env_wallets env)) "bitcoin") = None ∧
  snd (wallets_GetAddresses (fst (env_wallets env)) "skycoin") = None ∧
  (∀ err, env_orders env ≠ LoadFailed err).
Proof.
  rw /New /bitcoin.Type_ /skycoin.Type_.
  destruct (env_accounts env) as [am| |aerr]; destruct (env_wallets env) as [wlts [werr|]];
    cbn [fst snd];
    destruct (wallets_GetAddresses wlts "bitcoin") as [baddrs [berr|]];
    destruct (wallets_GetAddresses wlts "skycoin") as [saddrs [serr|]];
    destruct (env_orders env) as [om| |oerr]; cbn [fst snd].
  all: split; [intros [self Hnew]; try done|intros (Ha & Hw & Hb & Hs & Ho); try done].
  all: try (split_and!; done).
  all: try by eexists.
  all: try by destruct (Ha aerr).
  all: try by destruct (Ho oerr).
Qed.

(** X20: What [New] starts from: a store that does not exist is not an error,
    the server then starts with no account, respectively with the one,
    empty, book of "bitcoin/skycoin"; a store that loads is taken as it is,
    so a loaded order manager gets no book added. *)
Theorem New_stores env cfg0 self :
  New bitcoin_NewUtxoManager skycoin_NewUtxoManager env cfg0 = Done self →
  cfg self = cfg0 ∧
  (env_accounts env = NotExist → account.Accounts (Manager self) = ∅) ∧
  (∀ m, env_accounts env = Loaded m → Manager self = m) ∧
  (env_orders env = NotExist →
   order.books (orderManager self) = {[ "bitcoin/skycoin" := order.emptyBook ]}) ∧
  (∀ m, env_orders env = Loaded m → orderManager self = m).
Proof.
  rw /New. intros H.
  repeat match type of H with
         | match ?x with _ => _ end = _ => destruct x; try done
         end.
  all: injection H as <-; split_and!; try done; by intros ? [= ->].
Qed.

(** X21: The server [New] returns supports no coin: [GetCoin] fails for every
    type and [GetSupportCoins] is empty, until [BindCoins] is called. *)
Theorem New_no_coins env cfg0 self :
  New bitcoin_NewUtxoManager skycoin_NewUtxoManager env cfg0 = Done self →
  (∀ ct, GetCoin self ct = (None, Some (ct +:+ " coin is not supported"))) ∧
  GetSupportCoins self = [].
Proof.
  rw /New. intros H.
  repeat match type of H with
         | match ?x with _ => _ end = _ => destruct x; try done
         end.
  all: injection H as <-; split; [intros ct; by rw /GetCoin /= lookup_empty|].
  all: by rw /GetSupportCoins /= map_to_list_empty.
Qed.

End NewSpec.

Lemma New_done_iff_witness :
  ∃ self, server.New pool.NewUtxoManager (λ _, pool.NewUtxoManager) S1.env S1.config
          = Done self.
Proof.
  apply (proj2 (New_done_iff pool.NewUtxoManager (λ _, pool.NewUtxoManager)
                  S1.env S1.config)).
  split; [discriminate|]. split; [reflexivity|].
  split; [vm_compute; reflexivity|]. split; [vm_compute; reflexivity|discriminate].
Defined.

Lemma New_stores_witness :
  server.New pool.NewUtxoManager (λ _, pool.NewUtxoManager) S1.env S1.config
    = Done S1.serv ∧
  server.cfg S1.serv = S1.config ∧
  server.Manager S1.serv = S1.accounts ∧
  order.books (server.orderManager S1.serv) = {[ "bitcoin/skycoin" := order.emptyBook ]}.
Proof.
  assert (server.New pool.NewUtxoManager (λ _, pool.NewUtxoManager) S1.env S1.config
          = Done S1.serv) as H.
  { vm_compute. reflexivity. }
  split; [exact H|].
  destruct (New_stores pool.NewUtxoManager (λ _, pool.NewUtxoManager)
              S1.env S1.config S1.serv H) as (Hcfg & _ & Hacc & Hbooks & _).
  split; [exact Hcfg|]. split; [apply Hacc; reflexivity|apply Hbooks; reflexivity].
Defined.

Lemma New_no_coins_witness :
  server.New pool.NewUtxoManager (λ _, pool.NewUtxoManager) S1.env S1.config
    = Done S1.serv ∧
  server.GetCoin S1.serv "bitcoin" = (None, Some "bitcoin coin is not supported") ∧
  server.GetSupportCoins S1.serv = [].
Proof.
  assert (server.New pool.NewUtxoManager (λ _, pool.NewUtxoManager) S1.env S1.config
          = Done S1.serv) as H.
  { vm_compute. reflexivity. }
  split; [exact H|].
  destruct (New_no_coins pool.NewUtxoManager (λ _, pool.NewUtxoManager)
              S1.env S1.config S1.serv H) as [Hget Hsup].
  split; [exact (Hget "bitcoin")|exact Hsup].
Defined.

(** * Properties of the mobile wrappers *)

Section MobileSpec.
Import mobile.
Variable newCoin : string → string → Coiner.t.
Variable newBitcoin : string → Coiner.t.
Variable wallet_GetAddresses : string → list string * option error.
Implicit Types (g : Globals) (cfg : Config) (coins : list Coiner.t).

Lemma filter_none {A} (P : A → Prop) `{!∀ x, Decision (P x)} (l : list A) :
  Forall (λ x, ¬ P x) l → filter P l = [].
Proof. induction 1 as [|x l Hx _ IH]; [done|]. by rw filter_cons_False. Qed.

Lemma coinMap_fold_lookup coins n :
  foldl (λ m c, <[Coiner.Name c := c]> m) (∅ : gmap string Coiner.t) coins !! n
  = last (filter (λ c, Coiner.Name c = n) coins).
Proof.
  induction coins as [|c coins IH] using rev_ind; [done|].
  rw foldl_snoc filter_app filter_cons filter_nil. case_decide as Hn.
  - by rw Hn lookup_insert_eq last_snoc.
  - by rw lookup_insert_ne // app_nil_r.
Qed.

(** X22: [initConfig] forgets the coins held before; under each name it holds
    the last argument of that name, so with pairwise distinct names every
    argument is held under its name. *)
Theorem initConfig_coinMap g cfg coins :
  (∀ n, coinMap (initConfig g cfg coins) !! n
        = last (filter (λ c, Coiner.Name c = n) coins)) ∧
  (NoDup (Coiner.Name <$> coins) →
   ∀ c, c ∈ coins → coinMap (initConfig g cfg coins) !! Coiner.Name c = Some c).
Proof.
  split; [intros n; apply coinMap_fold_lookup|].
  intros Hnodup c Hc. rw /initConfig /= coinMap_fold_lookup.
  apply list_elem_of_lookup in Hc as [i Hi].
  apply list_elem_of_split_length in Hi as (l1 & l2 & -> & _).
  rw fmap_app fmap_cons in Hnodup.
  apply NoDup_app in Hnodup as (_ & _ & Hl2). apply NoDup_cons in Hl2 as [Hc _].
  rw filter_app filter_cons decide_True // last_app.
  assert (filter (λ c0, Coiner.Name c0 = Coiner.Name c) l2 = []) as ->; [|done].
  apply filter_none. apply Forall_forall. intros d Hd Heq.
  apply Hc. rw -Heq. by apply list_elem_of_fmap_2.
Qed.

(** X23: For a coin type the package does not hold, every wrapper that takes a
    coin type returns its zero value and "<type> is not supported", whatever
    its other arguments. *)
Theorem mobile_not_supported g coinType arg :
  coinMap g !! coinType = None →
  GetBalance g coinType arg = ("", Some (notSupported coinType)) ∧
  GetWalletBalance wallet_GetAddresses g coinType arg = ("", Some (notSupported coinType)) ∧
  GetTransactionByID g coinType arg = ("", Some (notSupported coinType)) ∧
  GetOutputByID g coinType arg = ("", Some (notSupported coinType)) ∧
  ValidateAddress g coinType arg = (false, Some (notSupported coinType)).
Proof.
  intros H.
  by rw /GetBalance /GetWalletBalance /GetTransactionByID /GetOutputByID
        /ValidateAddress H.
Qed.

(** X24: [GetBalance] returns without error exactly when the coin is held, the
    address is valid for it and the coin reports a balance; the text is then
    the balance as JSON.  With an error the text is empty. *)
Theorem GetBalance_ok_iff g coinType address out :
  (GetBalance g coinType address = (out, None) ↔
   ∃ coin bal,
     coinMap g !! coinType = Some coin ∧
     Coiner.ValidateAddr coin address = None ∧
     Coiner.GetBalance coin [address] = (bal, None) ∧
     out = fst (marshalBalance bal)) ∧
  (snd (GetBalance g coinType address) ≠ None →
   fst (GetBalance g coinType address) = "").
Proof.
  rw /GetBalance.
  destruct (coinMap g !! coinType) as [coin|] eqn:Hcoin.
  2:{ split; [|done]. split; [done|]. by intros (? & ? & [=] & _). }
  destruct (Coiner.ValidateAddr coin address) as [verr|] eqn:Hv.
  { split; [|done]. split; [done|]. intros (? & ? & [= <-] & Hv' & _). by rw Hv in Hv'. }
  destruct (Coiner.GetBalance coin [address]) as [bal [berr|]] eqn:Hb.
  { split; [|done]. split; [done|].
    intros (? & ? & [= <-] & _ & Hb' & _). by rw Hb in Hb'. }
  split; [|done]. cbn. split.
  - intros [= <-]. by exists coin, bal.
  - intros (? & ? & [= <-] & _ & Hb' & ->). rw Hb in Hb'. by injection Hb' as <-.
Qed.

Lemma append_char_inj s1 s2 c :
  s1 +:+ String c "" = s2 +:+ String c "" → s1 = s2.
Proof.
  revert s2. induction s1 as [|a s1 IH]; intros [|b s2]; rw ?append_nil_l ?append_cons.
  - done.
  - intros [= _ H]. by destruct s2.
  - intros [= _ H]. by destruct s1.
  - intros [= -> H]. by rw (IH _ H).
Qed.

(** X25: The JSON text of a balance tells the balance: two balances with the
    same text are the same. *)
Theorem marshalBalance_inj bal1 bal2 :
  fst (marshalBalance bal1) = fst (marshalBalance bal2) → bal1 = bal2.
Proof.
  rw /marshalBalance /=. intros H.
  do 5 apply (inj (String.append _)) in H.
  apply append_char_inj in H. by apply (inj pretty).
Qed.

(** X26: [ValidateAddress] answers true exactly when it has no error, and that
    is when the coin is held and accepts the address. *)
Theorem ValidateAddress_true_iff g coinType addr :
  (fst (ValidateAddress g coinType addr) = true ↔
   snd (ValidateAddress g coinType addr) = None) ∧
  (ValidateAddress g coinType addr = (true, None) ↔
   ∃ coin, coinMap g !! coinType = Some coin ∧ Coiner.ValidateAddr coin addr = None).
Proof.
  rw /ValidateAddress.
  destruct (coinMap g !! coinType) as [coin|] eqn:Hcoin.
  2:{ split; [done|]. split; [done|]. by intros (? & [=] & _). }
  destruct (Coiner.ValidateAddr coin addr) as [verr|] eqn:Hv.
  - split; [done|]. split; [done|]. intros (? & [= <-] & Hv'). by rw Hv in Hv'.
  - split; [done|]. split; [|done]. intros _. by exists coin.
Qed.

Section Named.
Hypothesis newCoin_Name : ∀ name addr, Coiner.Name (newCoin name addr) = name.
Hypothesis newBitcoin_Name : ∀ addr, Coiner.Name (newBitcoin addr) = "bitcoin".

Lemma Init_coinMap g cfg :
  coinMap (Init newCoin newBitcoin g cfg) =
  {[ "skycoin" := newCoin "skycoin" (ServerAddr (config g));
     "mzcoin" := newCoin "mzcoin" (ServerAddr (config g));
     "bitcoin" := newBitcoin (ServerAddr (config g)) ]}.
Proof.
  rw /Init /initConfig /= !newCoin_Name newBitcoin_Name.
  apply map_eq. intros n.
  destruct (decide (n = "bitcoin")) as [->|Hb]; [by simplify_map_eq|].
  destruct (decide (n = "mzcoin")) as [->|Hm]; [by simplify_map_eq|].
  destruct (decide (n = "skycoin")) as [->|Hs]; by simplify_map_eq.
Qed.

(** X27: [Init] makes its coins with the server address that was stored before
    the call, not with the one of its argument: after one [Init] the coins
    know the old address, and only a second [Init] with the same
    configuration gives them the address of the configuration. *)
Theorem Init_server_addr g cfg :
  config (Init newCoin newBitcoin g cfg) = cfg ∧
  coinMap (Init newCoin newBitcoin g cfg) !! "skycoin"
    = Some (newCoin "skycoin" (ServerAddr (config g))) ∧
  coinMap (Init newCoin newBitcoin g cfg) !! "bitcoin"
    = Some (newBitcoin (ServerAddr (config g))) ∧
  coinMap (Init newCoin newBitcoin (Init newCoin newBitcoin g cfg) cfg) !! "skycoin"
    = Some (newCoin "skycoin" (ServerAddr cfg)) ∧
  coinMap (Init newCoin newBitcoin (Init newCoin newBitcoin g cfg) cfg) !! "bitcoin"
    = Some (newBitcoin (ServerAddr cfg)).
Proof.
  rw !Init_coinMap. split_and!; try done.
Qed.

(** X28: Before [Init] the three senders fail with "... is not supported"; after
    [Init] each hands the transfer to its coin, [SendBtc] with the fee. *)
Theorem Send_after_Init g cfg walletID toAddr amount fee :
  SendSky start walletID toAddr amount = ("", Some "skycoin is not supported") ∧
  SendMzc start walletID toAddr amount = ("", Some "mzcoin is not supported") ∧
  SendBtc start walletID toAddr amount fee = ("", Some "bitcoin is not supported") ∧
  SendSky (Init newCoin newBitcoin g cfg) walletID toAddr amount
    = Coiner.Send (newCoin "skycoin" (ServerAddr (config g))) walletID toAddr amount [] ∧
  SendMzc (Init newCoin newBitcoin g cfg) walletID toAddr amount
    = Coiner.Send (newCoin "mzcoin" (ServerAddr (config g))) walletID toAddr amount [] ∧
  SendBtc (Init newCoin newBitcoin g cfg) walletID toAddr amount fee
    = Coiner.Send (newBitcoin (ServerAddr (config g))) walletID toAddr amount [Fee fee].
Proof.
  rw /SendSky /SendMzc /SendBtc !Init_coinMap. split_and!; done.
Qed.

End Named.

End MobileSpec.

Lemma initConfig_coinMap_witness :
  NoDup (mobile.Coiner.Name <$> [S9.coinOf "skycoin" ""; S9.coinOf "mzcoin" ""]) ∧
  mobile.coinMap (mobile.initConfig mobile.start S9.cfg
                    [S9.coinOf "skycoin" ""; S9.coinOf "mzcoin" ""]) !! "mzcoin"
  = Some (S9.coinOf "mzcoin" "").
Proof.
  assert (NoDup (mobile.Coiner.Name <$> [S9.coinOf "skycoin" ""; S9.coinOf "mzcoin" ""]))
    as Hnodup.
  { apply (bool_decide_unpack _). vm_compute. exact I. }
  split; [exact Hnodup|].
  apply (proj2 (initConfig_coinMap mobile.start S9.cfg
                  [S9.coinOf "skycoin" ""; S9.coinOf "mzcoin" ""]) Hnodup
           (S9.coinOf "mzcoin" "")).
  apply list_elem_of_In. simpl. tauto.
Defined.

Lemma mobile_not_supported_witness :
  mobile.coinMap S9.once !! "litecoin" = None ∧
  mobile.GetBalance S9.once "litecoin" "Labc" = ("", Some "litecoin is not supported") ∧
  mobile.ValidateAddress S9.once "litecoin" "Labc"
    = (false, Some "litecoin is not supported").
Proof.
  assert (mobile.coinMap S9.once !! "litecoin" = None) as H by (vm_compute; reflexivity).
  split; [exact H|].
  destruct (mobile_not_supported (λ _, ([], None)) S9.once "litecoin" "Labc" H)
    as (Hbal & _ & _ & _ & Hval).
  split; [exact Hbal|exact Hval].
Defined.

Lemma GetBalance_ok_iff_witness :
  mobile.GetBalance S9.once "skycoin" "Sabc" = (fst (mobile.marshalBalance 7), None).
Proof.
  apply (proj2 (proj1 (GetBalance_ok_iff S9.once "skycoin" "Sabc"
                         (fst (mobile.marshalBalance 7))))).
  exists (S9.coinOf "skycoin" ""), 7%N.
  split; [vm_compute; reflexivity|]. split; [reflexivity|]. split; reflexivity.
Defined.

Lemma marshalBalance_inj_witness :
  fst (mobile.marshalBalance 7) = fst (mobile.marshalBalance (3 + 4)) ∧ (7 = 3 + 4)%N.
Proof.
  assert (fst (mobile.marshalBalance 7) = fst (mobile.marshalBalance (3 + 4))) as H.
  { vm_compute. reflexivity. }
  split; [exact H|]. apply (marshalBalance_inj 7 (3 + 4) H).
Defined.

Lemma ValidateAddress_true_iff_witness :
  mobile.ValidateAddress S9.once "skycoin" "Sabc" = (true, None) ∧
  (fst (mobile.ValidateAddress S9.once "skycoin" "1abc") = true ↔
   snd (mobile.ValidateAddress S9.once "skycoin" "1abc") = None).
Proof.
  split.
  - apply (proj2 (proj2 (ValidateAddress_true_iff S9.once "skycoin" "Sabc"))).
    exists (S9.coinOf "skycoin" ""). split; [vm_compute; reflexivity|reflexivity].
  - apply (proj1 (ValidateAddress_true_iff S9.once "skycoin" "1abc")).
Defined.

Lemma Init_server_addr_witness :
  mobile.coinMap S9.once !! "skycoin" = Some (S9.newCoin "skycoin" "") ∧
  mobile.coinMap S9.twice !! "skycoin" = Some (S9.newCoin "skycoin" "10.0.0.1:8080").
Proof.
  destruct (Init_server_addr S9.newCoin S9.newBitcoin
              (λ name addr, eq_refl) (λ addr, eq_refl) mobile.start S9.cfg)
    as (_ & H1 & _ & H2 & _).
  split; [exact H1|exact H2].
Defined.

Lemma Send_after_Init_witness :
  mobile.SendSky S9.once "w" "Sabc" "5" = ("", Some "no server") ∧
  mobile.SendSky S9.twice "w" "Sabc" "5" = ("txid-5", None).
Proof.
  split.
  - apply (proj1 (proj2 (proj2 (proj2
      (Send_after_Init S9.newCoin S9.newBitcoin (λ name addr, eq_refl) (λ addr, eq_refl)
         mobile.start S9.cfg "w" "Sabc" "5" ""))))).
  - apply (proj1 (proj2 (proj2 (proj2
      (Send_after_Init S9.newCoin S9.newBitcoin (λ name addr, eq_refl) (λ addr, eq_refl)
         S9.once S9.cfg "w" "Sabc" "5" ""))))).
Defined.
